(** * Ziegler-Natta kinetics simulator: rate engine, property
      correlations and unit conversion

    The development follows the three library files of the application.

    [zieglerModel.ts].  The function [calculateReactionRates] is a
    straight-line numeric computation: it destructures its input record,
    evaluates thirty-two Arrhenius-form rate constants, three
    epsilon-guarded fractions, ten pseudo-kinetic constants and some
    thirty rate expressions, and returns a record of volume-scaled rates.

    JavaScript numbers are embedded as real numbers and [Math.exp] as the
    real exponential, so every statement below is about the exact
    arithmetic meaning of the formulas; rounding, overflow and NaN are
    outside this model.  Each [const] of the function body becomes a
    definition of the same name over the input record, with the operators
    in the order and association of the source.

    The composition stage, which calls no library function, is embedded a
    second time over IEEE-754 doubles ([Binary64]) and evaluated there on
    the inputs at which the real-number statements are tested.  The
    constant evaluator is embedded a second time with [Math_exp], the
    exponential with the underflow of a double, for the statements about
    the values the rate constants take.

    [unitConverter.ts] and [physicalProperties.ts] with
    [componentData.ts] are embedded in the modules [UnitConverter] and
    [PhysicalProperties]; their properties follow those of the rate
    engine. *)

From Stdlib Require Import Reals Lra Lia List String ZArith Bool.
From Stdlib Require Import Floats.PrimFloat.
Import ListNotations.
Open Scope R_scope.

(* A decimal literal of type float denotes the nearest double, as in the source. *)
#[local] Set Warnings "-inexact-float".

(** * Unit conversion ([unitConverter.ts]) *)

Module UnitConverter.

(** The [UnitType] enum and the [Unit] union of string literals. *)
Inductive UnitType : Type :=
| Pressure | Temperature | Mass | Length | Volume | Viscosity.

Inductive Unit : Type :=
| bar | atm | psi      (* PressureUnit *)
| C | K | F            (* TemperatureUnit *)
| kg | g | lbm.        (* MassUnit *)

Definition Unit_eq_dec (a b : Unit) : {a = b} + {a <> b}.
Proof. decide equality. Defined.

(** The four [throw new Error(...)] sites of [convertUnit]. *)
Inductive ConversionError : Type :=
| UnknownFromTemperatureUnit (fromUnit : Unit)
| UnknownToTemperatureUnit (toUnit : Unit)
| UnitTypeNotImplemented (unitType : UnitType)
| InvalidUnits (unitType : UnitType) (fromUnit toUnit : Unit).

Inductive Result : Type :=
| Ok (value : R)
| Throw (e : ConversionError).

(* Base unit for pressure is 'bar' *)
Definition pressureFactors : list (Unit * R) :=
  [ (bar, 1); (atm, 1 / 1.01325); (psi, 14.50377) ].

(* Base unit for mass is 'kg' *)
Definition massFactors : list (Unit * R) :=
  [ (kg, 1); (g, 1000); (lbm, 2.20462) ].

(** [Map.prototype.get] on a factor map. *)
Fixpoint get (factors : list (Unit * R)) (u : Unit) : option R :=
  match factors with
  | [] => None
  | (k, v) :: rest => if Unit_eq_dec k u then Some v else get rest u
  end.

Definition convertUnit (value : R) (fromUnit toUnit : Unit)
    (unitType : UnitType) : Result :=
  if Unit_eq_dec fromUnit toUnit then Ok value
  else
    match unitType with
    | Temperature =>
        (* First, convert from source unit to the base unit (Kelvin) *)
        match
          match fromUnit with
          | C => Some (value + 273.15)
          | F => Some ((value - 32) * (5 / 9) + 273.15)
          | K => Some value
          | _ => None
          end
        with
        | None => Throw (UnknownFromTemperatureUnit fromUnit)
        | Some valueInKelvin =>
            (* Then, convert from Kelvin to the target unit *)
            match toUnit with
            | C => Ok (valueInKelvin - 273.15)
            | F => Ok ((valueInKelvin - 273.15) * (9 / 5) + 32)
            | K => Ok valueInKelvin
            | _ => Throw (UnknownToTemperatureUnit toUnit)
            end
        end
    | _ =>
        (* For all other units, use the factor-based approach *)
        match
          match unitType with
          | Pressure => Some pressureFactors
          | Mass => Some massFactors
          | _ => None
          end
        with
        | None => Throw (UnitTypeNotImplemented unitType)
        | Some factors =>
            match get factors fromUnit, get factors toUnit with
            | Some fromFactor, Some toFactor =>
                (* Convert the value to the base unit, then to the target. *)
                let valueInBase := value / fromFactor in
                Ok (valueInBase * toFactor)
            | _, _ => Throw (InvalidUnits unitType fromUnit toUnit)
            end
        end
    end.

(** The units each unit type converts between: the cases of the two
    temperature switches and the keys of the two factor maps. *)
Definition unitsOf (unitType : UnitType) : list Unit :=
  match unitType with
  | Pressure => map fst pressureFactors
  | Temperature => [C; K; F]
  | Mass => map fst massFactors
  | Length | Volume | Viscosity => []
  end.

End UnitConverter.

(** * Pure-component property correlations ([physicalProperties.ts],
      [componentData.ts])

    A coefficient read past the end of its array is [undefined] in the
    source and turns the arithmetic it enters into NaN; here such a read is
    [None] and the value computed from it is [None].  Powers with a
    literal exponent are [^]; a power with a computed exponent is
    [Rpower] and [Math.log] is [ln], which agree with the source on a
    positive base or argument.  The [console] messages are not modelled. *)

Module PhysicalProperties.

Local Open Scope string_scope.

Inductive CorrelationType : Type :=
| Type1 | Type2 | Type3 | Type4 | Type5 | Type6.

(** [PropertyCoefficients]; the optional fields are options. *)
Record PropertyCoefficients : Type := mkCoefficients {
  property_name : string;
  correlation_type : CorrelationType;
  has_intervals : bool;
  interval_count : option nat;
  T_min : option (list R);
  T_max : option (list R);
  coeff_0 : list R;
  coeff_1 : list R;
  coeff_2 : list R;
  coeff_3 : list R;
  coeff_4 : list R
}.

Record ComponentConstants : Type := mkConstants {
  name : string;
  molecular_weight : R;
  critical_temperature : R;
  critical_pressure : R;
  acentric_factor : R;
  enthalpy_formation : R
}.

(** [PureComponent]; a JavaScript [Map] is an association list in
    insertion order. *)
Record PureComponent : Type := mkComponent {
  constants : ComponentConstants;
  properties : list (string * PropertyCoefficients);
  calculated_properties : list (string * option R)
}.

(** [Map.prototype.get] and [Map.prototype.set]: [set] on a present key
    replaces the value where the key stands, on a new key appends. *)
Fixpoint Map_get {V : Type} (m : list (string * V)) (key : string)
  : option V :=
  match m with
  | [] => None
  | (k, v) :: rest => if String.eqb k key then Some v else Map_get rest key
  end.

Fixpoint Map_set {V : Type} (m : list (string * V)) (key : string) (v : V)
  : list (string * V) :=
  match m with
  | [] => [(key, v)]
  | (k, v') :: rest =>
      if String.eqb k key then (k, v) :: rest
      else (k, v') :: Map_set rest key v
  end.

(** The value of [a[index]], and sequencing of reads that may be
    [undefined]. *)
Definition at_index (a : list R) (index : nat) : option R := nth_error a index.

Notation "x <- e ;; k" :=
  (match e with Some x => k | None => None end)
    (at level 61, e at next level, right associativity).

(** ** Mathematical helper functions *)

Definition coth (x : R) : R := cosh x / sinh x.

(** ** Property calculation functions *)

Definition calcPolynomial (T : R) (coeff : PropertyCoefficients)
    (index : nat) : option R :=
  c0 <- at_index (coeff_0 coeff) index ;;
  c1 <- at_index (coeff_1 coeff) index ;;
  c2 <- at_index (coeff_2 coeff) index ;;
  c3 <- at_index (coeff_3 coeff) index ;;
  c4 <- at_index (coeff_4 coeff) index ;;
  Some (c0 + c1 * T + c2 * T ^ 2 + c3 * T ^ 3 + c4 * T ^ 4).

Definition calcAntoine (T : R) (coeff : PropertyCoefficients)
    (index : nat) : option R :=
  c0 <- at_index (coeff_0 coeff) index ;;
  c1 <- at_index (coeff_1 coeff) index ;;
  c2 <- at_index (coeff_2 coeff) index ;;
  c3 <- at_index (coeff_3 coeff) index ;;
  c4 <- at_index (coeff_4 coeff) index ;;
  Some (c0 + c1 / T + c2 * ln T + c3 * Rpower T c4).

Definition calcType3 (T : R) (coeff : PropertyCoefficients)
    (index : nat) : option R :=
  c0 <- at_index (coeff_0 coeff) index ;;
  c1 <- at_index (coeff_1 coeff) index ;;
  c2 <- at_index (coeff_2 coeff) index ;;
  c3 <- at_index (coeff_3 coeff) index ;;
  let term1 := c0 * Rpower T c1 in
  let term2 := 1 + c2 / T + c3 / T ^ 2 in
  Some (term1 / term2).

Definition calcHyperbolic (T : R) (coeff : PropertyCoefficients)
    (index : nat) : option R :=
  c0 <- at_index (coeff_0 coeff) index ;;
  c1 <- at_index (coeff_1 coeff) index ;;
  c2 <- at_index (coeff_2 coeff) index ;;
  c3 <- at_index (coeff_3 coeff) index ;;
  c4 <- at_index (coeff_4 coeff) index ;;
  let term2_num := c2 / T in
  let term2 := (term2_num / sinh term2_num) ^ 2 in
  let term3_num := c4 / T in
  let term3 := (term3_num / cosh term3_num) ^ 2 in
  Some (c0 + c1 * term2 + c3 * term3).

Definition calcPuissance (Tr : R) (coeff : PropertyCoefficients)
    (index : nat) : option R :=
  c0 <- at_index (coeff_0 coeff) index ;;
  c1 <- at_index (coeff_1 coeff) index ;;
  c2 <- at_index (coeff_2 coeff) index ;;
  c3 <- at_index (coeff_3 coeff) index ;;
  c4 <- at_index (coeff_4 coeff) index ;;
  let exponent := c1 + c2 * Tr + c3 * Tr ^ 2 + c4 * Tr ^ 3 in
  Some (c0 * Rpower (1 - Tr) exponent).

Definition calcEnthalpy (T : R) (coeff : PropertyCoefficients)
    (index : nat) (HForm : R) : option R :=
  let T_ref := 298.15 in
  c0 <- at_index (coeff_0 coeff) index ;;
  c1 <- at_index (coeff_1 coeff) index ;;
  c2 <- at_index (coeff_2 coeff) index ;;
  c3 <- at_index (coeff_3 coeff) index ;;
  c4 <- at_index (coeff_4 coeff) index ;;
  Some (HForm + c0 * (T - T_ref)
        + c1 * c2 * (coth (c2 / T) - coth (c2 / T_ref))
        - c3 * c4 * (tanh (c4 / T) - tanh (c4 / T_ref))).

(** The dispatcher; its [default] branch is unreachable for the six
    correlation types. *)
Definition calcFunction (type : CorrelationType) (Tk Tr : R)
    (coeff : PropertyCoefficients) (index : nat) (hform : R) : option R :=
  match type with
  | Type1 => calcPolynomial Tk coeff index
  | Type2 => v <- calcAntoine Tk coeff index ;; Some (exp v)
  | Type3 => calcType3 Tk coeff index
  | Type4 => calcHyperbolic Tk coeff index
  | Type5 => calcPuissance Tr coeff index
  | Type6 => calcEnthalpy Tk coeff index hform
  end.

(** Estimate outside every tabulated interval. *)
Definition interpolateProperty (T : R) (coeff : PropertyCoefficients)
    (component : PureComponent) : option R :=
  let Tk := T in
  let Tr := Tk / critical_temperature (constants component) in
  match T_max coeff with
  | None | Some [] => Some 0
  | Some (T_max_ref :: _) =>
      let correlationIndex := 0%nat in
      let Tk1 := T_max_ref - 10 in
      let Tk2 := T_max_ref - 1 in
      let Tk3 := T_max_ref * (17 / 16) in
      let Tk4 := T_max_ref - 0.01 in
      let Tr1 := Tk1 / critical_temperature (constants component) in
      let Tr2 := Tk2 / critical_temperature (constants component) in
      let Tr3 := Tk3 / critical_temperature (constants component) in
      let Tr4 := Tk4 / critical_temperature (constants component) in
      if Rlt_dec Tk (1.25 * T_max_ref) then
        (* Extrapolation for a small range *)
        match correlation_type coeff with
        | Type1 | Type3 | Type4 =>
            val1 <- calcFunction (correlation_type coeff) Tk1 Tr1 coeff
                      correlationIndex
                      (enthalpy_formation (constants component)) ;;
            val2 <- calcFunction (correlation_type coeff) Tk2 Tr2 coeff
                      correlationIndex
                      (enthalpy_formation (constants component)) ;;
            Some (((val2 - val1) / (Tk2 - Tk1)) * (Tk - Tk1) + val1)
        | Type2 =>
            val1 <- calcAntoine Tk1 coeff correlationIndex ;;
            val2 <- calcAntoine Tk2 coeff correlationIndex ;;
            Some (exp (((val2 - val1) / (1 / Tk2 - 1 / Tk1))
                       * (1 / Tk - 1 / Tk1) + val1))
        | Type5 =>
            if Rle_dec Tr2 1 then
              val1 <- calcPuissance Tr1 coeff correlationIndex ;;
              val2 <- calcPuissance Tr2 coeff correlationIndex ;;
              val3 <- calcPuissance Tr4 coeff correlationIndex ;;
              Some (((val3 - val1) / (Tr4 - Tr1)
                     - (val2 - val1) / (Tr2 - Tr1)) / (Tr4 - Tr2)
                    * (Tr - Tr1) ^ 2
                    + ((val2 - val1) / (Tr2 - Tr1)) * (Tr - Tr1) + val1)
            else Some 0
        | Type6 => Some 0
        end
      else
        (* Far extrapolation, property is considered constant *)
        match correlation_type coeff with
        | Type1 | Type3 | Type4 =>
            val1 <- calcFunction (correlation_type coeff) Tk1 Tr1 coeff
                      correlationIndex
                      (enthalpy_formation (constants component)) ;;
            val2 <- calcFunction (correlation_type coeff) Tk2 Tr2 coeff
                      correlationIndex
                      (enthalpy_formation (constants component)) ;;
            Some (((val2 - val1) / (Tk2 - Tk1)) * (Tk3 - Tk1) + val1)
        | Type2 =>
            val1 <- calcAntoine Tk1 coeff correlationIndex ;;
            val2 <- calcAntoine Tk2 coeff correlationIndex ;;
            Some (exp (((val2 - val1) / (1 / Tk2 - 1 / Tk1))
                       * (1 / Tk3 - 1 / Tk1) + val1))
        | Type5 =>
            if Rle_dec Tr2 1 then
              val1 <- calcPuissance Tr1 coeff correlationIndex ;;
              val2 <- calcPuissance Tr2 coeff correlationIndex ;;
              val3 <- calcPuissance Tr4 coeff correlationIndex ;;
              Some (((val3 - val1) / (Tr4 - Tr1)
                     - (val2 - val1) / (Tr2 - Tr1)) / (Tr4 - Tr2)
                    * (Tr3 - Tr1) ^ 2
                    + ((val2 - val1) / (Tr2 - Tr1)) * (Tr3 - Tr1) + val1)
            else Some 0
        | Type6 => Some 0
        end
  end.

(** ** The controller *)

(** [Tk >= T_min[i] && Tk <= T_max[i]]; a comparison with [undefined] is
    false. *)
Definition withinInterval (Tk : R) (lo hi : option R) : bool :=
  match lo, hi with
  | Some a, Some b =>
      if Rle_dec a Tk then (if Rle_dec Tk b then true else false) else false
  | _, _ => false
  end.

(** The [for] loop over the intervals from [i] on, [remaining] iterations
    left; -1 when it ends without a [break]. *)
Fixpoint scanIntervals (Tk : R) (lows highs : list R) (i remaining : nat)
  : Z :=
  match remaining with
  | O => (-1)%Z
  | S r =>
      if withinInterval Tk (at_index lows i) (at_index highs i)
      then Z.of_nat i
      else scanIntervals Tk lows highs (S i) r
  end.

(** Which set of coefficients to use at [Tk]. *)
Definition correlationIndexAt (Tk : R) (propCoeffs : PropertyCoefficients)
  : Z :=
  match has_intervals propCoeffs, T_min propCoeffs, T_max propCoeffs with
  | true, Some lows, Some highs =>
      scanIntervals Tk lows highs 0
        (match interval_count propCoeffs with Some n => n | None => O end)
  | _, _, _ => 0%Z
  end.

(** Interval [j] of the tables contains [Tk]. *)
Definition covers (Tk : R) (lows highs : list R) (j : nat) : Prop :=
  exists a b, at_index lows j = Some a /\ at_index highs j = Some b
              /\ a <= Tk <= b.

Definition with_calculated (m : list (string * option R))
    (component : PureComponent) : PureComponent :=
  {| constants := constants component;
     properties := properties component;
     calculated_properties := m |}.

(** The [value] one pass of the loop over the properties computes. *)
Definition propertyValue (T : R) (componentClone : PureComponent)
    (propCoeffs : PropertyCoefficients) : option R :=
  let Tk := T in
  let Tr := Tk / critical_temperature (constants componentClone) in
  let correlationIndex := correlationIndexAt Tk propCoeffs in
  if Z.eqb correlationIndex (-1) then
    (* Temperature is out of range, call interpolation *)
    interpolateProperty Tk propCoeffs componentClone
  else
    (* Temperature is within a valid range *)
    calcFunction (correlation_type propCoeffs) Tk Tr propCoeffs
      (Z.to_nat correlationIndex)
      (enthalpy_formation (constants componentClone)).

(** One pass of the loop over [componentClone.properties.entries()]. *)
Definition calculateProperty (T : R) (componentClone : PureComponent)
    (entry : string * PropertyCoefficients) : PureComponent :=
  let '(propName, propCoeffs) := entry in
  with_calculated
    (Map_set (calculated_properties componentClone) propName
       (propertyValue T componentClone propCoeffs))
    componentClone.

(** The body of the loop over [componentNames] for a component found in
    the library: clone, clear the calculated values, fill them in. *)
Definition calculateComponent (T : R) (component : PureComponent)
  : PureComponent :=
  let componentClone := with_calculated [] component in
  fold_left (calculateProperty T) (properties componentClone) componentClone.

Section Controller.

(** The module-level [componentLibrary]. *)
Variable componentLibrary : list (string * PureComponent).

Definition calculateAllPropertiesFrom (componentNames : list string) (T : R)
  : list (string * PureComponent) :=
  fold_left
    (fun results name =>
       match Map_get componentLibrary name with
       | None => results
       | Some component =>
           Map_set results name (calculateComponent T component)
       end)
    componentNames [].

End Controller.

(** ** The component library of [componentData.ts] *)

Definition ethylene_constants : ComponentConstants :=
  {| name := "ETHYLENE";
     molecular_weight := 28.054;
     critical_temperature := 282.35;
     critical_pressure := 50.40;
     acentric_factor := 0.087;
     enthalpy_formation := 52467 |}.

Definition ethylene_vapor_heat_capacity : PropertyCoefficients :=
  {| property_name := "Vapor heat capacity";
     correlation_type := Type1;
     has_intervals := true;
     interval_count := Some 2%nat;
     T_min := Some [200; 500];
     T_max := Some [500; 1500];
     coeff_0 := [1.424e+4; 5.869e+4];
     coeff_1 := [7.550e+1; -6.650e+1];
     coeff_2 := [-1.800e-2; 2.370e-1];
     coeff_3 := [0; -1.280e-4];
     coeff_4 := [0; 2.530e-8] |}.

Definition ethylene_liquid_viscosity : PropertyCoefficients :=
  {| property_name := "Liquid viscosity";
     correlation_type := Type2;
     has_intervals := false;
     interval_count := None;
     T_min := None;
     T_max := None;
     coeff_0 := [-6.4013];
     coeff_1 := [183.56];
     coeff_2 := [0];
     coeff_3 := [0.019];
     coeff_4 := [1] |}.

Definition ethylene_properties : list (string * PropertyCoefficients) :=
  Map_set
    (Map_set [] "Vapor heat capacity" ethylene_vapor_heat_capacity)
    "Liquid viscosity" ethylene_liquid_viscosity.

Definition ethylene : PureComponent :=
  {| constants := ethylene_constants;
     properties := ethylene_properties;
     calculated_properties := [] |}.

Definition hexene_constants : ComponentConstants :=
  {| name := "1-HEXENE";
     molecular_weight := 84.161;
     critical_temperature := 504.0;
     critical_pressure := 31.10;
     acentric_factor := 0.281;
     enthalpy_formation := -41160 |}.

Definition hexene_vapor_heat_capacity : PropertyCoefficients :=
  {| property_name := "Vapor heat capacity";
     correlation_type := Type1;
     has_intervals := false;
     interval_count := None;
     T_min := None;
     T_max := None;
     coeff_0 := [2.579e+4];
     coeff_1 := [3.332e+2];
     coeff_2 := [-8.470e-2];
     coeff_3 := [-2.180e-5];
     coeff_4 := [0] |}.

Definition hexene_properties : list (string * PropertyCoefficients) :=
  Map_set [] "Vapor heat capacity" hexene_vapor_heat_capacity.

Definition hexene : PureComponent :=
  {| constants := hexene_constants;
     properties := hexene_properties;
     calculated_properties := [] |}.

Definition componentLibrary : list (string * PureComponent) :=
  Map_set (Map_set [] "ETHYLENE" ethylene) "1-HEXENE" hexene.

Definition calculateAllProperties : list string -> R
  -> list (string * PureComponent) :=
  calculateAllPropertiesFrom componentLibrary.

(** ** Sample input *)

(** An enthalpy correlation with one set of coefficients (the library of
    [componentData.ts] has none of this type). *)
Definition sample_enthalpy_correlation : PropertyCoefficients :=
  {| property_name := "Vapor enthalpy";
     correlation_type := Type6;
     has_intervals := false;
     interval_count := None;
     T_min := None;
     T_max := None;
     coeff_0 := [33380];
     coeff_1 := [94790];
     coeff_2 := [1596];
     coeff_3 := [55100];
     coeff_4 := [740.8] |}.

End PhysicalProperties.

(** * The rate engine ([zieglerModel.ts]) *)

Module ZieglerModel.

(** ** Interfaces *)

(** [ZieglerModelInputs]: concentrations (mol/L), volume (L), temperature
    (K), reactor selector, and the living-polymer state. *)
Record ZieglerModelInputs : Type := mkInputs {
  hydrogen : R;
  ethylene : R;
  hexene : R;
  catalyst : R;
  cr6 : R;
  cocatalyst : R;
  volume : R;
  temperature : R;
  reactorFlag : R;
  activeSites_z0_1 : R;
  activeSites_z0_2 : R;
  livingPolymerEnd_z1_1 : R;
  livingPolymerEnd_z1_2 : R;
  livingPolymerEnd_z2_1 : R;
  livingPolymerEnd_z2_2 : R;
  livingPolymerMoment0_y0_1 : R;
  livingPolymerMoment0_y0_2 : R;
  livingPolymerMoment1_y1_1 : R;
  livingPolymerMoment1_y1_2 : R;
  livingPolymerMoment2_y2_1 : R;
  livingPolymerMoment2_y2_2 : R
}.

(** [ZieglerModelOutputs]: one field per reported rate. *)
Record ZieglerModelOutputs : Type := mkOutputs {
  polymerProductionRate : R;
  rateNitrogen : R;
  rateEthylene : R;
  rateEthane : R;
  ratePropane : R;
  rateButene : R;
  rateIsobutane : R;
  rateHexene : R;
  rateHexane : R;
  rateWater : R;
  rateCarbonMonoxide : R;
  rateMethane : R;
  rateHydrogen : R;
  rateEthylenesegment : R;
  rateHexenesegment : R;
  rateCatalyst : R;
  rateCocatalyst : R;
  rateCr6 : R;
  rateDeadPolymerMoment0_x0_1 : R;
  rateDeadPolymerMoment0_x0_2 : R;
  rateDeadPolymerMoment1_x1_1 : R;
  rateDeadPolymerMoment1_x1_2 : R;
  rateDeadPolymerMoment2_x2_1 : R;
  rateDeadPolymerMoment2_x2_2 : R;
  rateLivingPolymerMoment0_y0_1 : R;
  rateLivingPolymerMoment0_y0_2 : R;
  rateLivingPolymerMoment1_y1_1 : R;
  rateLivingPolymerMoment1_y1_2 : R;
  rateLivingPolymerMoment2_y2_1 : R;
  rateLivingPolymerMoment2_y2_2 : R;
  rateActiveSites_z0_1 : R;
  rateActiveSites_z0_2 : R;
  rateLivingPolymerEnd_z1_1 : R;
  rateLivingPolymerEnd_z1_2 : R;
  rateLivingPolymerEnd_z2_1 : R;
  rateLivingPolymerEnd_z2_2 : R;
  ratePolymerMass : R
}.

(** A call either returns an output record or raises.  The specification
    names one error kind, [InvalidTemperature]; the function body contains
    no [throw]. *)
Inductive EngineError : Type := InvalidTemperature.

Inductive Outcome : Type :=
| Returned (o : ZieglerModelOutputs)
| Raised (e : EngineError).

(** ** Constants *)

(* Fixed constants and molecular weights *)
Definition MC2 : R := 28. (* Molecular weight of C2 (Ethylene) g/mol *)
Definition MC6 : R := 84. (* Molecular weight of C6 (1-Hexene) g/mol *)
Definition MH2 : R := 2. (* Molecular weight of H2 (Hydrogen) g/mol *)

(* Kinetic model parameters: Arrhenius pre-exponential terms a and activation terms b. *)

(* Activation Parameters *)
(* These parameters control the conversion of inactive to active catalyst sites. *)
Definition aka : R := 1.90413.
Definition bka : R := 2.35352.
Definition akaa : R := 42.8061.
Definition bkaa : R := 2.07067.
Definition akaH : R := 43.4913.
Definition bkaH : R := 1.81544.

(* Initiation Parameters *)
(* These parameters control the start of a new polymer chain on an active site. *)
Definition ai1_1 : R := 2.72252.
Definition bi1_1 : R := 0.00164819.
Definition ai1_2 : R := 0.0190001.
Definition bi1_2 : R := 2.76802.
Definition ai2_1 : R := 0.00158295.
Definition bi2_1 : R := 75.0948.
Definition ai2_2 : R := 2.49924.
Definition bi2_2 : R := 3.86923.

(* Propagation Parameters *)
(* These parameters control the growth of the polymer chain by adding monomers. *)
Definition ap11_1 : R := 23.5079.
Definition bp11_1 : R := 62.7073.
Definition ap11_2 : R := 44.4108489690084.
Definition bp11_2 : R := 9.02536689954115.
Definition ap12_1 : R := 7.45487.
Definition bp12_1 : R := 570.828.
Definition ap12_2 : R := 16.6269298831462.
Definition bp12_2 : R := 1.34505395511823E-02.
Definition ap21_1 : R := 11.7691.
Definition bp21_1 : R := 13.1246.
Definition ap21_2 : R := 13.0385236154171.
Definition bp21_2 : R := 7.12672329782542E-02.
Definition ap22_1 : R := 0.0506817.
Definition bp22_1 : R := 91.5249.
Definition ap22_2 : R := 10.2482861977761.
Definition bp22_2 : R := 245.73403529402.

(* Transfer Parameters *)
(* These parameters control the stopping of a chain, which yields a 'dead' polymer and a new active site. *)
Definition at11_1 : R := 1.91232.
Definition bt11_1 : R := 574.851.
Definition at11_2 : R := 2.12135.
Definition bt11_2 : R := 198.691.
Definition at12_1 : R := 2.3086.
Definition bt12_1 : R := 598.13.
Definition at12_2 : R := 1.92168.
Definition bt12_2 : R := 449.254.
Definition at21_1 : R := 1.88274.
Definition bt21_1 : R := 10.4787.
Definition at21_2 : R := 1.81545.
Definition bt21_2 : R := 50.6018.
Definition at22_1 : R := 1.85856.
Definition bt22_1 : R := 15.4026.
Definition at22_2 : R := 2.041.
Definition bt22_2 : R := 476.019.
Definition atH1_1 : R := 8.24086.
Definition btH1_1 : R := 24.0953.
Definition atH1_2 : R := 7.87596.
Definition btH1_2 : R := 2.95216.
Definition atH2_1 : R := 10.4391.
Definition btH2_1 : R := 0.00153492.
Definition atH2_2 : R := 0.806824.
Definition btH2_2 : R := 46.4001.

(* Termination Parameters *)
(* These parameters control the irreversible deactivation of a growing chain. *)
Definition ate1_1 : R := 2.01811.
Definition bte1_1 : R := 13.8224.
Definition ate1_2 : R := 1.99198.
Definition bte1_2 : R := 15.4759.
Definition ate2_1 : R := 1.83056.
Definition bte2_1 : R := 15.2807.
Definition ate2_2 : R := 2.11061.
Definition bte2_2 : R := 10.8984.

(* Other Parameters *)
Definition aethane : R := 0.0010069. (* For a side reaction *)
Definition bethane : R := 3.06806. (* For a side reaction *)
Definition teta1 : R := 0.624963.
Definition teta2 : R := 1 - teta1.

(** ** The body of [calculateReactionRates] *)

Section Body.

Variable inputs : ZieglerModelInputs.

(* The destructuring [const { hydrogen: H2, ... } = inputs]. *)
Definition H2 : R := hydrogen inputs.
Definition M1 : R := ethylene inputs.
Definition M2 : R := hexene inputs.
Definition N0_1 : R := activeSites_z0_1 inputs.
Definition N0_2 : R := activeSites_z0_2 inputs.
Definition N1_1 : R := livingPolymerEnd_z1_1 inputs.
Definition N1_2 : R := livingPolymerEnd_z1_2 inputs.
Definition N2_1 : R := livingPolymerEnd_z2_1 inputs.
Definition N2_2 : R := livingPolymerEnd_z2_2 inputs.
Definition S : R := catalyst inputs.
Definition S1 : R := cr6 inputs.
Definition Y0_1 : R := livingPolymerMoment0_y0_1 inputs.
Definition Y0_2 : R := livingPolymerMoment0_y0_2 inputs.
Definition Y1_1 : R := livingPolymerMoment1_y1_1 inputs.
Definition Y1_2 : R := livingPolymerMoment1_y1_2 inputs.
Definition Y2_1 : R := livingPolymerMoment2_y2_1 inputs.
Definition Y2_2 : R := livingPolymerMoment2_y2_2 inputs.
Definition V : R := volume inputs.
Definition T : R := temperature inputs.
Definition c : R := cocatalyst inputs.

(* The [switch (reactorFlag)]: strict equality with 1..4, otherwise 0. *)
Definition eth : R :=
  if Req_dec_T (reactorFlag inputs) 1 then 5.34329
  else if Req_dec_T (reactorFlag inputs) 2 then 1.13724
  else if Req_dec_T (reactorFlag inputs) 3 then 0.318066
  else if Req_dec_T (reactorFlag inputs) 4 then 0.456617
  else 0.

Definition totalMonomerConcentration : R := M1 + M2.
Definition f1 : R := M1 / (totalMonomerConcentration + 1E-25).
Definition f2 : R := M2 / (totalMonomerConcentration + 1E-25).

Definition phi1_1 : R := N1_1 / (N1_1 + N2_1 + 1E-25).
Definition phi1_2 : R := N1_2 / (N1_2 + N2_2 + 1E-25).
Definition phi2_1 : R := 1 - phi1_1.
Definition phi2_2 : R := 1 - phi1_2.

(* Kinetic constants calculation (Arrhenius equation) *)
(* k = exp(a) * exp(- exp(b) / T) *)
Definition kethane : R := exp aethane * exp (- exp bethane / T).
Definition ka : R := exp aka * exp (- exp bka / T).
Definition kaa : R := exp akaa * exp (- exp bkaa / T).
Definition kaH : R := exp akaH * exp (- exp bkaH / T).
Definition ki1_1 : R := exp ai1_1 * exp (- exp bi1_1 / T).
Definition ki1_2 : R := exp ai1_2 * exp (- exp bi1_2 / T).
Definition ki2_1 : R := exp ai2_1 * exp (- exp bi2_1 / T).
Definition ki2_2 : R := exp ai2_2 * exp (- exp bi2_2 / T).
Definition kp11_1 : R := exp ap11_1 * exp (- exp bp11_1 / T).
Definition kp11_2 : R := exp ap11_2 * exp (- exp bp11_2 / T).
Definition kp12_1 : R := exp ap12_1 * exp (- exp bp12_1 / T).
Definition kp12_2 : R := exp ap12_2 * exp (- exp bp12_2 / T).
Definition kp21_1 : R := exp ap21_1 * exp (- exp bp21_1 / T).
Definition kp21_2 : R := exp ap21_2 * exp (- exp bp21_2 / T).
Definition kp22_1 : R := exp ap22_1 * exp (- exp bp22_1 / T).
Definition kp22_2 : R := exp ap22_2 * exp (- exp bp22_2 / T).
Definition kt11_1 : R := exp at11_1 * exp (- exp bt11_1 / T).
Definition kt11_2 : R := exp at11_2 * exp (- exp bt11_2 / T).
Definition kt12_1 : R := exp at12_1 * exp (- exp bt12_1 / T).
Definition kt12_2 : R := exp at12_2 * exp (- exp bt12_2 / T).
Definition kt21_1 : R := exp at21_1 * exp (- exp bt21_1 / T).
Definition kt21_2 : R := exp at21_2 * exp (- exp bt21_2 / T).
Definition kt22_1 : R := exp at22_1 * exp (- exp bt22_1 / T).
Definition kt22_2 : R := exp at22_2 * exp (- exp bt22_2 / T).
Definition ktH1_1 : R := exp atH1_1 * exp (- exp btH1_1 / T).
Definition ktH1_2 : R := exp atH1_2 * exp (- exp btH1_2 / T).
Definition ktH2_1 : R := exp atH2_1 * exp (- exp btH2_1 / T).
Definition ktH2_2 : R := exp atH2_2 * exp (- exp btH2_2 / T).
Definition kte1_1 : R := exp ate1_1 * exp (- exp bte1_1 / T).
Definition kte1_2 : R := exp ate1_2 * exp (- exp bte1_2 / T).
Definition kte2_1 : R := exp ate2_1 * exp (- exp bte2_1 / T).
Definition kte2_2 : R := exp ate2_2 * exp (- exp bte2_2 / T).

(* Pseudo-constants calculation *)
Definition pseudo_ki_1 : R := (ki1_1 * f1 + ki2_1 * f2).
Definition pseudo_ki_2 : R := (ki1_2 * f1 + ki2_2 * f2).
Definition pseudo_kp_1 : R :=
  (kp11_1 * f1 * phi1_1 + kp21_1 * f1 * phi2_1 + kp22_1 * f2 * phi2_1 + kp12_1 * phi1_1 * f2).
Definition pseudo_kp_2 : R :=
  (kp11_2 * f1 * phi1_2 + kp21_2 * f1 * phi2_2 + kp22_2 * f2 * phi2_2 + kp12_2 * phi1_2 * f2).
Definition pseudo_kt_1 : R :=
  (kt11_1 * f1 * phi1_1 + kt21_1 * f1 * phi2_1 + kt22_1 * f2 * phi2_1 + kt12_1 * phi1_1 * f2).
Definition pseudo_kt_2 : R :=
  (kt11_2 * f1 * phi1_2 + kt21_2 * f1 * phi2_2 + kt22_2 * f2 * phi2_2 + kt12_2 * phi1_2 * f2).
Definition pseudo_ktH_1 : R := (ktH1_1 * phi1_1 + ktH2_1 * phi2_1).
Definition pseudo_ktH_2 : R := (ktH1_2 * phi1_2 + ktH2_2 * phi2_2).
Definition pseudo_kte_1 : R := (kte1_1 * phi1_1 + kte2_1 * phi2_1).
Definition pseudo_kte_2 : R := (kte1_2 * phi1_2 + kte2_2 * phi2_2).

(* Rate equations (R refers to d[...]/dt) *)
(* Monomer consumption rates *)
Definition RM1 : R :=
  -N0_1 * M1 * ki1_1 - N0_2 * M1 * ki1_2 - M1 * Y0_1 * (kp11_1 * phi1_1 + kt11_1 * phi1_1 + kp21_1 * phi2_1 + kt21_1 * phi2_1) - M1 * Y0_2 * (kp11_2 * phi1_2 + kt11_2 * phi1_2 + kp21_2 * phi2_2 + kt21_2 * phi2_2).
Definition RM2 : R :=
  -N0_1 * M2 * ki2_1 - N0_2 * M2 * ki2_2 - M2 * Y0_1 * (kp22_1 * phi2_1 + kt22_1 * phi2_1 + kp12_1 * phi1_1 + kt12_1 * phi1_1) - M2 * Y0_2 * (kp22_2 * phi2_2 + kt22_2 * phi2_2 + kp12_2 * phi1_2 + kt12_2 * phi1_2).

(* Hydrogen consumption rate *)
Definition RH2 : R :=
  -Y0_1 * H2 * (ktH1_1 + ktH2_1) - Y0_2 * H2 * (ktH1_2 + ktH2_2) - kaH * H2 * S1 - kethane * H2 * eth.

(* Catalyst site rates *)
Definition RS : R := -ka * S * c - kaa * c * S.
Definition RS1 : R := -kaH * H2 * S1 + kaa * c * S.
Definition RC : R := -ka * S * c - kaa * c * S.

(* Active site rates (formation and consumption) *)
Definition RN0_1 : R :=
  (ka * S * c + kaH * H2 * S1) * teta1 - ki1_1 * N0_1 * M1 - ki2_1 * N0_1 * M2.
Definition RN0_2 : R :=
  (ka * S * c + kaH * H2 * S1) * teta2 - ki1_2 * N0_2 * M1 - ki2_2 * N0_2 * M2.

(* Living polymer moments rates *)
Definition RY0_1 : R :=
  N0_1 * totalMonomerConcentration * pseudo_ki_1 - Y0_1 * pseudo_kte_1 - Y0_1 * H2 * pseudo_ktH_1.
Definition RY0_2 : R :=
  N0_2 * totalMonomerConcentration * pseudo_ki_2 - Y0_2 * pseudo_kte_2 - Y0_2 * H2 * pseudo_ktH_2.
Definition RY1_1 : R :=
  N0_1 * totalMonomerConcentration * pseudo_ki_1 + totalMonomerConcentration * Y0_1 * (pseudo_kp_1 + pseudo_kt_1) - totalMonomerConcentration * Y1_1 * pseudo_kt_1 - Y1_1 * (H2 * pseudo_ktH_1 + pseudo_kte_1).
Definition RY1_2 : R :=
  N0_2 * totalMonomerConcentration * pseudo_ki_2 + totalMonomerConcentration * Y0_2 * (pseudo_kp_2 + pseudo_kt_2) - totalMonomerConcentration * Y1_2 * pseudo_kt_2 - Y1_2 * (H2 * pseudo_ktH_2 + pseudo_kte_2).
Definition RY2_1 : R :=
  N0_1 * totalMonomerConcentration * pseudo_ki_1 + totalMonomerConcentration * Y0_1 * (pseudo_kp_1 + pseudo_kt_1) + 2 * totalMonomerConcentration * pseudo_kp_1 * Y1_1 - Y2_1 * (pseudo_kt_1 * totalMonomerConcentration + pseudo_ktH_1 * H2 + pseudo_kte_1).
Definition RY2_2 : R :=
  N0_2 * totalMonomerConcentration * pseudo_ki_2 + totalMonomerConcentration * Y0_2 * (pseudo_kp_2 + pseudo_kt_2) + 2 * totalMonomerConcentration * pseudo_kp_2 * Y1_2 - Y2_2 * (pseudo_kt_2 * totalMonomerConcentration + pseudo_ktH_2 * H2 + pseudo_kte_2).

(* Dead polymer moments rates *)
Definition Rx0_1 : R :=
  Y0_1 * (totalMonomerConcentration * pseudo_kt_1 + pseudo_ktH_1 * H2 + pseudo_kte_1).
Definition Rx0_2 : R :=
  Y0_2 * (totalMonomerConcentration * pseudo_kt_2 + pseudo_ktH_2 * H2 + pseudo_kte_2).
Definition Rx1_1 : R :=
  Y1_1 * (totalMonomerConcentration * pseudo_kt_1 + pseudo_ktH_1 * H2 + pseudo_kte_1).
Definition Rx1_2 : R :=
  Y1_2 * (totalMonomerConcentration * pseudo_kt_2 + pseudo_ktH_2 * H2 + pseudo_kte_2).
Definition Rx2_1 : R :=
  Y2_1 * (totalMonomerConcentration * pseudo_kt_1 + pseudo_ktH_1 * H2 + pseudo_kte_1).
Definition Rx2_2 : R :=
  Y2_2 * (totalMonomerConcentration * pseudo_kt_2 + pseudo_ktH_2 * H2 + pseudo_kte_2).

(* Living polymer end-group rates *)
Definition RN1_1 : R :=
  ki1_1 * M1 * N0_1 + kp21_1 * N2_1 * M1 + kt21_1 * N2_1 * M1 - ktH1_1 * H2 * N1_1 - kte1_1 * N1_1 - kp12_1 * N1_1 * M2 - kt12_1 * N1_1 * M2.
Definition RN1_2 : R :=
  ki1_2 * M1 * N0_2 + kp21_2 * N2_2 * M1 + kt21_2 * N2_2 * M1 - ktH1_2 * H2 * N1_2 - kte1_2 * N1_2 - kp12_2 * N1_2 * M2 - kt12_2 * N1_2 * M2.
Definition RN2_1 : R :=
  ki2_1 * M2 * N0_1 + kp12_1 * N1_1 * M2 + kt12_1 * N1_1 * M2 - kp21_1 * N2_1 * M1 - kt21_1 * N2_1 * M1 - ktH2_1 * H2 * N2_1 - kte2_1 * N2_1.
Definition RN2_2 : R :=
  ki2_2 * M2 * N0_2 + kp12_2 * N1_2 * M2 + kt12_2 * N1_2 * M2 - kp21_2 * N2_2 * M1 - kt21_2 * N2_2 * M1 - ktH2_2 * H2 * N2_2 - kte2_2 * N2_2.

(* Total polymer production rate in g/h *)
Definition polymerRate_M1_consumption : R :=
  -RM1. (* Consumption is the negative of the rate of change *)
Definition polymerRate_M2_consumption : R := -RM2.
Definition polymerRateGrams : R :=
  (polymerRate_M1_consumption * MC2 + polymerRate_M2_consumption * MC6) * V.

(* The returned object literal. *)
Definition outputs : ZieglerModelOutputs :=
  {| polymerProductionRate := polymerRateGrams;
     ratePolymerMass := polymerRateGrams;
     rateNitrogen := 0;
     rateEthylene := RM1 * V;
     rateEthane := 0;
     ratePropane := 0;
     rateButene := 0;
     rateIsobutane := 0;
     rateHexene := RM2 * V;
     rateHexane := 0;
     rateWater := 0;
     rateCarbonMonoxide := 0;
     rateMethane := 0;
     rateHydrogen := RH2 * V;
     rateEthylenesegment := 0;
     rateHexenesegment := 0;
     rateCatalyst := RS * V;
     rateCocatalyst := RC * V;
     rateCr6 := RS1 * V;
     rateDeadPolymerMoment0_x0_1 := Rx0_1 * V;
     rateDeadPolymerMoment0_x0_2 := Rx0_2 * V;
     rateDeadPolymerMoment1_x1_1 := Rx1_1 * V;
     rateDeadPolymerMoment1_x1_2 := Rx1_2 * V;
     rateDeadPolymerMoment2_x2_1 := Rx2_1 * V;
     rateDeadPolymerMoment2_x2_2 := Rx2_2 * V;
     rateLivingPolymerMoment0_y0_1 := RY0_1 * V;
     rateLivingPolymerMoment0_y0_2 := RY0_2 * V;
     rateLivingPolymerMoment1_y1_1 := RY1_1 * V;
     rateLivingPolymerMoment1_y1_2 := RY1_2 * V;
     rateLivingPolymerMoment2_y2_1 := RY2_1 * V;
     rateLivingPolymerMoment2_y2_2 := RY2_2 * V;
     rateActiveSites_z0_1 := RN0_1 * V;
     rateActiveSites_z0_2 := RN0_2 * V;
     rateLivingPolymerEnd_z1_1 := RN1_1 * V;
     rateLivingPolymerEnd_z1_2 := RN1_2 * V;
     rateLivingPolymerEnd_z2_1 := RN2_1 * V;
     rateLivingPolymerEnd_z2_2 := RN2_2 * V |}.

Definition calculateReactionRates : Outcome := Returned outputs.

End Body.

(** ** The composition stage over doubles *)

(** Lines 203-210 of the body with [number] read as binary64: the same
    expressions over the six concentrations they mention. *)
Module Binary64.
Section Fractions.

Local Open Scope float_scope.

Variables M1 M2 N1_1 N2_1 N1_2 N2_2 : float.

Definition totalMonomerConcentration : float := M1 + M2.
Definition f1 : float := M1 / (totalMonomerConcentration + 1E-25).
Definition f2 : float := M2 / (totalMonomerConcentration + 1E-25).

Definition phi1_1 : float := N1_1 / (N1_1 + N2_1 + 1E-25).
Definition phi1_2 : float := N1_2 / (N1_2 + N2_2 + 1E-25).
Definition phi2_1 : float := 1 - phi1_1.
Definition phi2_2 : float := 1 - phi1_2.

End Fractions.
End Binary64.

(** ** Reference forms taken from the specification *)

(** The double-exponential rate law of section 4.1 and the conventional
    single-exponential Arrhenius law it is contrasted with. *)
Definition arrhenius (a b temp : R) : R := exp a * exp (- exp b / temp).
Definition standard_arrhenius (a b temp : R) : R := exp a * exp (- b / temp).

(** The two aggregation patterns of section 4.3. *)
Definition four_term_blend (k11 k21 k22 k12 fa fb phia phib : R) : R :=
  k11 * fa * phia + k21 * fa * phib + k22 * fb * phib + k12 * phia * fb.
Definition two_term_blend (k1 k2 phia phib : R) : R := k1 * phia + k2 * phib.

(** Every rate constant of the body, next to the literal pair it is
    computed from: [(a, b, k)]. *)
Definition KineticConstantTable : list (R * R * (ZieglerModelInputs -> R)) :=
  [ (aethane, bethane, kethane);
    (aka, bka, ka);
    (akaa, bkaa, kaa);
    (akaH, bkaH, kaH);
    (ai1_1, bi1_1, ki1_1);
    (ai1_2, bi1_2, ki1_2);
    (ai2_1, bi2_1, ki2_1);
    (ai2_2, bi2_2, ki2_2);
    (ap11_1, bp11_1, kp11_1);
    (ap11_2, bp11_2, kp11_2);
    (ap12_1, bp12_1, kp12_1);
    (ap12_2, bp12_2, kp12_2);
    (ap21_1, bp21_1, kp21_1);
    (ap21_2, bp21_2, kp21_2);
    (ap22_1, bp22_1, kp22_1);
    (ap22_2, bp22_2, kp22_2);
    (at11_1, bt11_1, kt11_1);
    (at11_2, bt11_2, kt11_2);
    (at12_1, bt12_1, kt12_1);
    (at12_2, bt12_2, kt12_2);
    (at21_1, bt21_1, kt21_1);
    (at21_2, bt21_2, kt21_2);
    (at22_1, bt22_1, kt22_1);
    (at22_2, bt22_2, kt22_2);
    (atH1_1, btH1_1, ktH1_1);
    (atH1_2, btH1_2, ktH1_2);
    (atH2_1, btH2_1, ktH2_1);
    (atH2_2, btH2_2, ktH2_2);
    (ate1_1, bte1_1, kte1_1);
    (ate1_2, bte1_2, kte1_2);
    (ate2_1, bte2_1, kte2_1);
    (ate2_2, bte2_2, kte2_2) ].

(** ** The constant evaluator within the range of a double *)

(** [Math.exp] returns a double: a result below half the smallest
    positive double, [2^-1075], comes back as 0.  [Math_exp] is the real
    exponential with that cut-off; rounding is still left out.  For a
    positive temperature underflow is the only range effect in lines
    214-245: every [a] and [b] is below 600, far from the overflow bound
    of [Math.exp], and the third argument is negative. *)
Definition exp_underflow_threshold : R := - (1075 * ln 2).

Definition Math_exp (x : R) : R :=
  if Rlt_dec x exp_underflow_threshold then 0 else exp x.

(** Line 213, [k = exp(a) * exp(-exp(b) / T)], the form of each of the
    lines 214-245, evaluated with [Math_exp]. *)
Definition evaluated_constant (a b temp : R) : R :=
  Math_exp a * Math_exp (- Math_exp b / temp).

(** ** Sample inputs *)

(** All concentrations zero; volume, temperature and selector free. *)
Definition zero_state (vol temp flag : R) : ZieglerModelInputs :=
  {| hydrogen := 0; ethylene := 0; hexene := 0; catalyst := 0; cr6 := 0;
     cocatalyst := 0; volume := vol; temperature := temp; reactorFlag := flag;
     activeSites_z0_1 := 0; activeSites_z0_2 := 0;
     livingPolymerEnd_z1_1 := 0; livingPolymerEnd_z1_2 := 0;
     livingPolymerEnd_z2_1 := 0; livingPolymerEnd_z2_2 := 0;
     livingPolymerMoment0_y0_1 := 0; livingPolymerMoment0_y0_2 := 0;
     livingPolymerMoment1_y1_1 := 0; livingPolymerMoment1_y1_2 := 0;
     livingPolymerMoment2_y2_1 := 0; livingPolymerMoment2_y2_2 := 0 |}.

(** The loop-reactor operating point used by the application's page. *)
Definition loop_reactor (temp : R) : ZieglerModelInputs :=
  {| hydrogen := 0.005; ethylene := 0.08; hexene := 0.02; catalyst := 0.0001;
     cr6 := 0; cocatalyst := 0.01; volume := 100000; temperature := temp;
     reactorFlag := 1;
     activeSites_z0_1 := 1e-7; activeSites_z0_2 := 1e-7;
     livingPolymerEnd_z1_1 := 1e-7; livingPolymerEnd_z1_2 := 1e-7;
     livingPolymerEnd_z2_1 := 1e-7; livingPolymerEnd_z2_2 := 1e-7;
     livingPolymerMoment0_y0_1 := 1e-7; livingPolymerMoment0_y0_2 := 1e-7;
     livingPolymerMoment1_y1_1 := 1e-7; livingPolymerMoment1_y1_2 := 1e-7;
     livingPolymerMoment2_y2_1 := 1e-7; livingPolymerMoment2_y2_2 := 1e-7 |}.

(** ** Views of the input and output records *)

(** The input with its volume replaced. *)
Definition with_volume (vol : R) (i : ZieglerModelInputs) : ZieglerModelInputs :=
  {| hydrogen := hydrogen i;
     ethylene := ethylene i;
     hexene := hexene i;
     catalyst := catalyst i;
     cr6 := cr6 i;
     cocatalyst := cocatalyst i;
     volume := vol;
     temperature := temperature i;
     reactorFlag := reactorFlag i;
     activeSites_z0_1 := activeSites_z0_1 i;
     activeSites_z0_2 := activeSites_z0_2 i;
     livingPolymerEnd_z1_1 := livingPolymerEnd_z1_1 i;
     livingPolymerEnd_z1_2 := livingPolymerEnd_z1_2 i;
     livingPolymerEnd_z2_1 := livingPolymerEnd_z2_1 i;
     livingPolymerEnd_z2_2 := livingPolymerEnd_z2_2 i;
     livingPolymerMoment0_y0_1 := livingPolymerMoment0_y0_1 i;
     livingPolymerMoment0_y0_2 := livingPolymerMoment0_y0_2 i;
     livingPolymerMoment1_y1_1 := livingPolymerMoment1_y1_1 i;
     livingPolymerMoment1_y1_2 := livingPolymerMoment1_y1_2 i;
     livingPolymerMoment2_y2_1 := livingPolymerMoment2_y2_1 i;
     livingPolymerMoment2_y2_2 := livingPolymerMoment2_y2_2 i |}.

(** The input with its reactor selector replaced. *)
Definition with_reactorFlag (flag : R) (i : ZieglerModelInputs)
  : ZieglerModelInputs :=
  {| hydrogen := hydrogen i;
     ethylene := ethylene i;
     hexene := hexene i;
     catalyst := catalyst i;
     cr6 := cr6 i;
     cocatalyst := cocatalyst i;
     volume := volume i;
     temperature := temperature i;
     reactorFlag := flag;
     activeSites_z0_1 := activeSites_z0_1 i;
     activeSites_z0_2 := activeSites_z0_2 i;
     livingPolymerEnd_z1_1 := livingPolymerEnd_z1_1 i;
     livingPolymerEnd_z1_2 := livingPolymerEnd_z1_2 i;
     livingPolymerEnd_z2_1 := livingPolymerEnd_z2_1 i;
     livingPolymerEnd_z2_2 := livingPolymerEnd_z2_2 i;
     livingPolymerMoment0_y0_1 := livingPolymerMoment0_y0_1 i;
     livingPolymerMoment0_y0_2 := livingPolymerMoment0_y0_2 i;
     livingPolymerMoment1_y1_1 := livingPolymerMoment1_y1_1 i;
     livingPolymerMoment1_y1_2 := livingPolymerMoment1_y1_2 i;
     livingPolymerMoment2_y2_1 := livingPolymerMoment2_y2_1 i;
     livingPolymerMoment2_y2_2 := livingPolymerMoment2_y2_2 i |}.

(** The output with its hydrogen rate replaced. *)
Definition with_rateHydrogen (h : R) (o : ZieglerModelOutputs)
  : ZieglerModelOutputs :=
  {| polymerProductionRate := polymerProductionRate o;
     rateNitrogen := rateNitrogen o;
     rateEthylene := rateEthylene o;
     rateEthane := rateEthane o;
     ratePropane := ratePropane o;
     rateButene := rateButene o;
     rateIsobutane := rateIsobutane o;
     rateHexene := rateHexene o;
     rateHexane := rateHexane o;
     rateWater := rateWater o;
     rateCarbonMonoxide := rateCarbonMonoxide o;
     rateMethane := rateMethane o;
     rateHydrogen := h;
     rateEthylenesegment := rateEthylenesegment o;
     rateHexenesegment := rateHexenesegment o;
     rateCatalyst := rateCatalyst o;
     rateCocatalyst := rateCocatalyst o;
     rateCr6 := rateCr6 o;
     rateDeadPolymerMoment0_x0_1 := rateDeadPolymerMoment0_x0_1 o;
     rateDeadPolymerMoment0_x0_2 := rateDeadPolymerMoment0_x0_2 o;
     rateDeadPolymerMoment1_x1_1 := rateDeadPolymerMoment1_x1_1 o;
     rateDeadPolymerMoment1_x1_2 := rateDeadPolymerMoment1_x1_2 o;
     rateDeadPolymerMoment2_x2_1 := rateDeadPolymerMoment2_x2_1 o;
     rateDeadPolymerMoment2_x2_2 := rateDeadPolymerMoment2_x2_2 o;
     rateLivingPolymerMoment0_y0_1 := rateLivingPolymerMoment0_y0_1 o;
     rateLivingPolymerMoment0_y0_2 := rateLivingPolymerMoment0_y0_2 o;
     rateLivingPolymerMoment1_y1_1 := rateLivingPolymerMoment1_y1_1 o;
     rateLivingPolymerMoment1_y1_2 := rateLivingPolymerMoment1_y1_2 o;
     rateLivingPolymerMoment2_y2_1 := rateLivingPolymerMoment2_y2_1 o;
     rateLivingPolymerMoment2_y2_2 := rateLivingPolymerMoment2_y2_2 o;
     rateActiveSites_z0_1 := rateActiveSites_z0_1 o;
     rateActiveSites_z0_2 := rateActiveSites_z0_2 o;
     rateLivingPolymerEnd_z1_1 := rateLivingPolymerEnd_z1_1 o;
     rateLivingPolymerEnd_z1_2 := rateLivingPolymerEnd_z1_2 o;
     rateLivingPolymerEnd_z2_1 := rateLivingPolymerEnd_z2_1 o;
     rateLivingPolymerEnd_z2_2 := rateLivingPolymerEnd_z2_2 o;
     ratePolymerMass := ratePolymerMass o |}.

(** Every field of the output record, in interface order. *)
Definition output_fields (o : ZieglerModelOutputs) : list R :=
  [ polymerProductionRate o; rateNitrogen o; rateEthylene o; rateEthane o;
    ratePropane o; rateButene o; rateIsobutane o; rateHexene o; rateHexane o;
    rateWater o; rateCarbonMonoxide o; rateMethane o; rateHydrogen o;
    rateEthylenesegment o; rateHexenesegment o; rateCatalyst o;
    rateCocatalyst o; rateCr6 o;
    rateDeadPolymerMoment0_x0_1 o; rateDeadPolymerMoment0_x0_2 o;
    rateDeadPolymerMoment1_x1_1 o; rateDeadPolymerMoment1_x1_2 o;
    rateDeadPolymerMoment2_x2_1 o; rateDeadPolymerMoment2_x2_2 o;
    rateLivingPolymerMoment0_y0_1 o; rateLivingPolymerMoment0_y0_2 o;
    rateLivingPolymerMoment1_y1_1 o; rateLivingPolymerMoment1_y1_2 o;
    rateLivingPolymerMoment2_y2_1 o; rateLivingPolymerMoment2_y2_2 o;
    rateActiveSites_z0_1 o; rateActiveSites_z0_2 o;
    rateLivingPolymerEnd_z1_1 o; rateLivingPolymerEnd_z1_2 o;
    rateLivingPolymerEnd_z2_1 o; rateLivingPolymerEnd_z2_2 o;
    ratePolymerMass o ].

(** The concentration-basis rates (mol/L/h) the body computes. *)
Definition concentration_rates (i : ZieglerModelInputs) : list R :=
  [ RM1 i; RM2 i; RH2 i; RS i; RC i; RS1 i;
    Rx0_1 i; Rx0_2 i; Rx1_1 i; Rx1_2 i; Rx2_1 i; Rx2_2 i;
    RY0_1 i; RY0_2 i; RY1_1 i; RY1_2 i; RY2_1 i; RY2_2 i;
    RN0_1 i; RN0_2 i; RN1_1 i; RN1_2 i; RN2_1 i; RN2_2 i ].

(** The output fields fed by those rates, in the same order. *)
Definition absolute_rate_fields (o : ZieglerModelOutputs) : list R :=
  [ rateEthylene o; rateHexene o; rateHydrogen o; rateCatalyst o;
    rateCocatalyst o; rateCr6 o;
    rateDeadPolymerMoment0_x0_1 o; rateDeadPolymerMoment0_x0_2 o;
    rateDeadPolymerMoment1_x1_1 o; rateDeadPolymerMoment1_x1_2 o;
    rateDeadPolymerMoment2_x2_1 o; rateDeadPolymerMoment2_x2_2 o;
    rateLivingPolymerMoment0_y0_1 o; rateLivingPolymerMoment0_y0_2 o;
    rateLivingPolymerMoment1_y1_1 o; rateLivingPolymerMoment1_y1_2 o;
    rateLivingPolymerMoment2_y2_1 o; rateLivingPolymerMoment2_y2_2 o;
    rateActiveSites_z0_1 o; rateActiveSites_z0_2 o;
    rateLivingPolymerEnd_z1_1 o; rateLivingPolymerEnd_z1_2 o;
    rateLivingPolymerEnd_z2_1 o; rateLivingPolymerEnd_z2_2 o ].

(** The output fields of species the mechanism does not track. *)
Definition untracked_species_fields (o : ZieglerModelOutputs) : list R :=
  [ rateNitrogen o; rateEthane o; ratePropane o; rateButene o;
    rateIsobutane o; rateHexane o; rateWater o; rateCarbonMonoxide o;
    rateMethane o; rateEthylenesegment o; rateHexenesegment o ].

(** The quantities the body divides by. *)
Definition divisors (i : ZieglerModelInputs) : list R :=
  [ totalMonomerConcentration i + 1E-25; N1_1 i + N2_1 i + 1E-25;
    N1_2 i + N2_2 i + 1E-25; T i ].

Definition nonnegative_concentrations (i : ZieglerModelInputs) : Prop :=
  0 <= hydrogen i /\
  0 <= ethylene i /\
  0 <= hexene i /\
  0 <= catalyst i /\
  0 <= cr6 i /\
  0 <= cocatalyst i /\
  0 <= activeSites_z0_1 i /\
  0 <= activeSites_z0_2 i /\
  0 <= livingPolymerEnd_z1_1 i /\
  0 <= livingPolymerEnd_z1_2 i /\
  0 <= livingPolymerEnd_z2_1 i /\
  0 <= livingPolymerEnd_z2_2 i /\
  0 <= livingPolymerMoment0_y0_1 i /\
  0 <= livingPolymerMoment0_y0_2 i /\
  0 <= livingPolymerMoment1_y1_1 i /\
  0 <= livingPolymerMoment1_y1_2 i /\
  0 <= livingPolymerMoment2_y2_1 i /\
  0 <= livingPolymerMoment2_y2_2 i.

Definition all_concentrations_zero (i : ZieglerModelInputs) : Prop :=
  hydrogen i = 0 /\ ethylene i = 0 /\ hexene i = 0 /\
  catalyst i = 0 /\ cr6 i = 0 /\ cocatalyst i = 0 /\
  activeSites_z0_1 i = 0 /\ activeSites_z0_2 i = 0 /\
  livingPolymerEnd_z1_1 i = 0 /\ livingPolymerEnd_z1_2 i = 0 /\
  livingPolymerEnd_z2_1 i = 0 /\ livingPolymerEnd_z2_2 i = 0 /\
  livingPolymerMoment0_y0_1 i = 0 /\ livingPolymerMoment0_y0_2 i = 0 /\
  livingPolymerMoment1_y1_1 i = 0 /\ livingPolymerMoment1_y1_2 i = 0 /\
  livingPolymerMoment2_y2_1 i = 0 /\ livingPolymerMoment2_y2_2 i = 0.

(** One mole per litre of ethylene over one mole per litre of type-1
    active sites in a two-litre reactor, nothing else present. *)
Definition initiation_only_state : ZieglerModelInputs :=
  {| hydrogen := 0; ethylene := 1; hexene := 0; catalyst := 0; cr6 := 0;
     cocatalyst := 0; volume := 2; temperature := 363.15; reactorFlag := 1;
     activeSites_z0_1 := 1; activeSites_z0_2 := 0;
     livingPolymerEnd_z1_1 := 0; livingPolymerEnd_z1_2 := 0;
     livingPolymerEnd_z2_1 := 0; livingPolymerEnd_z2_2 := 0;
     livingPolymerMoment0_y0_1 := 0; livingPolymerMoment0_y0_2 := 0;
     livingPolymerMoment1_y1_1 := 0; livingPolymerMoment1_y1_2 := 0;
     livingPolymerMoment2_y2_1 := 0; livingPolymerMoment2_y2_2 := 0 |}.

(** ** Proof automation *)

(** Unfold the rate expressions, then the destructured input names. *)
Ltac unfold_rates :=
  unfold polymerRateGrams, polymerRate_M1_consumption,
    polymerRate_M2_consumption,
    RM1, RM2, RH2, RS, RS1, RC, RN0_1, RN0_2,
    RY0_1, RY0_2, RY1_1, RY1_2, RY2_1, RY2_2,
    Rx0_1, Rx0_2, Rx1_1, Rx1_2, Rx2_1, Rx2_2,
    RN1_1, RN1_2, RN2_1, RN2_2,
    pseudo_ki_1, pseudo_ki_2, pseudo_kp_1, pseudo_kp_2,
    pseudo_kt_1, pseudo_kt_2, pseudo_ktH_1, pseudo_ktH_2,
    pseudo_kte_1, pseudo_kte_2,
    phi2_1, phi2_2, phi1_1, phi1_2, f1, f2, totalMonomerConcentration,
    MC2, MC6 in *.

Ltac unfold_inputs :=
  unfold H2, M1, M2, N0_1, N0_2, N1_1, N1_2, N2_1, N2_2, S, S1,
    Y0_1, Y0_2, Y1_1, Y1_2, Y2_1, Y2_2, V, c in *.

(** Rewrites the destructured names of an all-zero input to 0. *)
Ltac zero_concentrations i Hz :=
  unfold all_concentrations_zero in Hz;
  destruct Hz as (HH2 & HM1 & HM2 & HS & HS1 & Hc & HN01 & HN02 & HN11 & HN12
                  & HN21 & HN22 & HY01 & HY02 & HY11 & HY12 & HY21 & HY22);
  unfold H2, M1, M2, S, S1, c, N0_1, N0_2, N1_1, N1_2, N2_1, N2_2,
    Y0_1, Y0_2, Y1_1, Y1_2, Y2_1, Y2_2;
  rewrite ?HH2, ?HM1, ?HM2, ?HS, ?HS1, ?Hc, ?HN01, ?HN02, ?HN11, ?HN12,
    ?HN21, ?HN22, ?HY01, ?HY02, ?HY11, ?HY12, ?HY21, ?HY22.

(** ** The embedding on concrete inputs *)

(** The reactor selector picks the auxiliary constant; an unrecognised
    selector gives 0. *)
Example eth_reactor_1 : eth (loop_reactor 363.15) = 5.34329.
Proof.
  unfold eth. cbn [reactorFlag loop_reactor].
  destruct (Req_dec_T 1 1) as [_ | Hne]; [reflexivity | contradiction].
Qed.

Example eth_reactor_3 : eth (zero_state 1 363.15 3) = 0.318066.
Proof.
  unfold eth. cbn [reactorFlag zero_state].
  destruct (Req_dec_T 3 1); [lra |].
  destruct (Req_dec_T 3 2); [lra |].
  destruct (Req_dec_T 3 3) as [_ | Hne]; [reflexivity | contradiction].
Qed.

Example eth_reactor_unknown : eth (zero_state 1 363.15 99) = 0.
Proof.
  unfold eth. cbn [reactorFlag zero_state].
  repeat (match goal with
          | |- context [Req_dec_T ?x ?y] => destruct (Req_dec_T x y); [lra |]
          end).
  reflexivity.
Qed.

(** At the loop-reactor operating point four fifths of the monomer is
    ethylene, up to the guard. *)
Example f1_loop_reactor :
  f1 (loop_reactor 363.15) = 0.08 / (0.08 + 0.02 + 1E-25).
Proof. reflexivity. Qed.

(** With ethylene and type-1 active sites only, the ethylene rate is the
    initiation term alone. *)
Example RM1_initiation_only :
  RM1 initiation_only_state = - ki1_1 initiation_only_state.
Proof.
  unfold RM1, phi2_1, phi2_2, phi1_1, phi1_2. unfold_inputs.
  cbn [initiation_only_state ethylene activeSites_z0_1 activeSites_z0_2
       livingPolymerEnd_z1_1 livingPolymerEnd_z1_2 livingPolymerEnd_z2_1
       livingPolymerEnd_z2_2 livingPolymerMoment0_y0_1
       livingPolymerMoment0_y0_2].
  unfold Rdiv. ring.
Qed.

(** The composition stage in doubles: the all-zero state gives 0 for
    [f1], [f2], [phi1_1], [phi1_2] and 1 for [phi2_1], [phi2_2], and no
    NaN; at the loop-reactor point the mole fractions sum to the double
    just below 1 and the end-group fractions to 1; with [M1] equal to
    the guard the mole fractions sum to one half. *)
Example binary64_zero_state :
  (Binary64.f1 0 0, Binary64.f2 0 0,
   Binary64.phi1_1 0 0, Binary64.phi1_2 0 0,
   Binary64.phi2_1 0 0, Binary64.phi2_2 0 0)
  = (0, 0, 0, 0, 1, 1)%float.
Proof. vm_compute. reflexivity. Qed.

Example binary64_loop_reactor :
  (Binary64.f1 0.08 0.02 + Binary64.f2 0.08 0.02)%float
  = 0.99999999999999989%float /\
  (Binary64.phi1_1 1e-7 1e-7 + Binary64.phi2_1 1e-7 1e-7)%float = 1%float /\
  (Binary64.phi1_2 1e-7 1e-7 + Binary64.phi2_2 1e-7 1e-7)%float = 1%float.
Proof. repeat split; vm_compute; reflexivity. Qed.

Example binary64_guard_sized_monomer :
  (Binary64.f1 1e-25 0 + Binary64.f2 1e-25 0)%float = 0.5%float.
Proof. vm_compute. reflexivity. Qed.

(** ** Properties of the rate law *)

Lemma exp_above_identity (b : R) : b < exp b.
Proof. pose proof (exp_ineq1_le b). lra. Qed.

Lemma arrhenius_pos (a b temp : R) : 0 < arrhenius a b temp.
Proof. unfold arrhenius. apply Rmult_lt_0_compat; apply exp_pos. Qed.

Lemma arrhenius_not_standard (a b temp : R) :
  0 < temp -> arrhenius a b temp <> standard_arrhenius a b temp.
Proof.
  intros Htemp Heq. unfold arrhenius, standard_arrhenius in Heq.
  apply Rmult_eq_reg_l in Heq; [| pose proof (exp_pos a); lra].
  apply exp_inv in Heq.
  assert (Hb : exp b = b).
  { unfold Rdiv in Heq. apply Rmult_eq_reg_r in Heq.
    - lra.
    - apply Rinv_neq_0_compat. lra. }
  pose proof (exp_above_identity b). lra.
Qed.

Lemma arrhenius_increasing (a b t1 t2 : R) :
  0 < t1 -> t1 < t2 -> arrhenius a b t1 < arrhenius a b t2.
Proof.
  intros H1 H12. unfold arrhenius.
  apply Rmult_lt_compat_l; [apply exp_pos |].
  apply exp_increasing.
  assert (Hinv : / t2 < / t1) by (apply Rinv_lt_contravar; nra).
  pose proof (exp_pos b) as Hb.
  unfold Rdiv. nra.
Qed.

Lemma arrhenius_below_prefactor (a b temp : R) :
  0 < temp -> arrhenius a b temp < exp a.
Proof.
  intros Ht. unfold arrhenius.
  rewrite <- (Rmult_1_r (exp a)) at 2.
  apply Rmult_lt_compat_l; [apply exp_pos |].
  rewrite <- exp_0. apply exp_increasing.
  pose proof (exp_pos b) as Hb.
  pose proof (Rinv_0_lt_compat _ Ht) as Hi.
  unfold Rdiv. nra.
Qed.

(** ** Stage 1: the constant evaluator *)

(** C3. At every positive temperature each rate constant of the engine is
    the double-exponential form [exp a * exp (- exp b / T)] of its own
    literal pair [(a, b)], and it differs from the single-exponential
    Arrhenius value [exp a * exp (- b / T)] of that pair. *)
Theorem rate_constants_double_exponential (i : ZieglerModelInputs) :
  0 < T i ->
  Forall (fun '(a, b, k) =>
            k i = arrhenius a b (T i) /\ k i <> standard_arrhenius a b (T i))
         KineticConstantTable.
Proof.
  intros HT. unfold KineticConstantTable.
  repeat (apply Forall_cons;
          [split; [reflexivity | apply (arrhenius_not_standard _ _ _ HT)] |]).
  apply Forall_nil.
Qed.

Lemma rate_constants_double_exponential_witness :
  0 < T (loop_reactor 363.15) /\
  Forall (fun '(a, b, k) =>
            k (loop_reactor 363.15) = arrhenius a b (T (loop_reactor 363.15)) /\
            k (loop_reactor 363.15)
              <> standard_arrhenius a b (T (loop_reactor 363.15)))
         KineticConstantTable.
Proof.
  assert (HT : 0 < T (loop_reactor 363.15))
    by (unfold T; cbn [temperature loop_reactor]; lra).
  split; [exact HT | exact (rate_constants_double_exponential _ HT)].
Defined.

(** *** Underflow of the evaluated constants *)

Lemma ln_2_bounds : 1 / 2 < ln 2 < 1.
Proof.
  assert (H3 : exp 1 <= 3) by apply exp_le_3.
  assert (H2 : 2 < exp 1) by (pose proof (exp_ineq1 1); lra).
  assert (Hh : exp (1 / 2) * exp (1 / 2) = exp 1)
    by (rewrite <- exp_plus; f_equal; lra).
  pose proof (exp_pos (1 / 2)) as Hp.
  assert (Hlt : exp (1 / 2) < 2) by nra.
  split.
  - assert (H : ln (exp (1 / 2)) < ln 2) by (apply ln_increasing; assumption).
    rewrite ln_exp in H. exact H.
  - assert (H : ln 2 < ln (exp 1)) by (apply ln_increasing; lra).
    rewrite ln_exp in H. exact H.
Qed.

(** [ln 2] is above 0.66, so the underflow bound [1075 * ln 2] is above
    700. *)
Lemma underflow_bound_above_700 : 700 < 1075 * ln 2.
Proof.
  pose proof (exp_ineq1_le (- 0.0825)) as Hlow.
  pose proof (exp_pos 0.0825) as Hp.
  assert (Hinv : exp 0.0825 * exp (- 0.0825) = 1)
    by (rewrite <- exp_plus; replace (0.0825 + - 0.0825) with 0 by lra;
        apply exp_0).
  assert (H1 : exp 0.0825 <= 1.08992) by nra.
  assert (E2 : exp 0.165 = exp 0.0825 * exp 0.0825)
    by (rewrite <- exp_plus; f_equal; lra).
  assert (H2 : exp 0.165 <= 1.18793) by nra.
  assert (E4 : exp 0.33 = exp 0.165 * exp 0.165)
    by (rewrite <- exp_plus; f_equal; lra).
  pose proof (exp_pos 0.165) as Hp2.
  assert (H4 : exp 0.33 <= 1.41118) by nra.
  assert (E8 : exp 0.66 = exp 0.33 * exp 0.33)
    by (rewrite <- exp_plus; f_equal; lra).
  pose proof (exp_pos 0.33) as Hp4.
  assert (H8 : exp 0.66 < 2) by nra.
  assert (Hln : ln (exp 0.66) < ln 2)
    by (apply ln_increasing; [apply exp_pos | exact H8]).
  rewrite ln_exp in Hln. lra.
Qed.

Lemma exp_underflow_threshold_negative : exp_underflow_threshold < 0.
Proof. unfold exp_underflow_threshold. pose proof ln_2_bounds. lra. Qed.

Lemma Math_exp_nonneg (x : R) : 0 <= Math_exp x.
Proof.
  unfold Math_exp. destruct (Rlt_dec x exp_underflow_threshold);
    [lra | pose proof (exp_pos x); lra].
Qed.

Lemma Math_exp_of_nonneg (x : R) : 0 <= x -> Math_exp x = exp x.
Proof.
  intros Hx. unfold Math_exp. pose proof exp_underflow_threshold_negative.
  destruct (Rlt_dec x exp_underflow_threshold); [lra | reflexivity].
Qed.

Lemma Math_exp_zero_iff (x : R) :
  Math_exp x = 0 <-> x < exp_underflow_threshold.
Proof.
  unfold Math_exp. destruct (Rlt_dec x exp_underflow_threshold) as [H | H].
  - tauto.
  - pose proof (exp_pos x). split; intros; lra.
Qed.

Lemma Math_exp_monotone (x y : R) : x <= y -> Math_exp x <= Math_exp y.
Proof.
  intros Hxy. unfold Math_exp.
  destruct (Rlt_dec x exp_underflow_threshold),
           (Rlt_dec y exp_underflow_threshold); try lra.
  - pose proof (exp_pos y). lra.
  - destruct (Req_dec x y) as [-> | Hne]; [lra |].
    left. apply exp_increasing. lra.
Qed.

Lemma Math_exp_strict (x y : R) :
  x < y -> Math_exp x <> 0 -> Math_exp x < Math_exp y.
Proof.
  intros Hxy Hx. unfold Math_exp in *.
  destruct (Rlt_dec x exp_underflow_threshold); [contradiction Hx; reflexivity |].
  destruct (Rlt_dec y exp_underflow_threshold); [lra |].
  apply exp_increasing. exact Hxy.
Qed.

Lemma evaluated_constant_cases (a b temp : R) :
  0 <= a -> 0 <= b ->
  evaluated_constant a b temp
  = if Rlt_dec (1075 * ln 2) (exp b / temp) then 0 else arrhenius a b temp.
Proof.
  intros Ha Hb. unfold evaluated_constant, arrhenius.
  rewrite (Math_exp_of_nonneg a Ha), (Math_exp_of_nonneg b Hb).
  unfold Math_exp, exp_underflow_threshold.
  replace (- exp b / temp) with (- (exp b / temp)) by (unfold Rdiv; ring).
  destruct (Rlt_dec (- (exp b / temp)) (- (1075 * ln 2)));
    destruct (Rlt_dec (1075 * ln 2) (exp b / temp)); try lra; ring.
Qed.

(** The literal parameters of the engine are all non-negative. *)
Create HintDb kinetic_parameters.
#[local] Hint Unfold aethane bethane aka bka akaa bkaa akaH bkaH
  ai1_1 bi1_1 ai1_2 bi1_2 ai2_1 bi2_1 ai2_2 bi2_2
  ap11_1 bp11_1 ap11_2 bp11_2 ap12_1 bp12_1 ap12_2 bp12_2
  ap21_1 bp21_1 ap21_2 bp21_2 ap22_1 bp22_1 ap22_2 bp22_2
  at11_1 bt11_1 at11_2 bt11_2 at12_1 bt12_1 at12_2 bt12_2
  at21_1 bt21_1 at21_2 bt21_2 at22_1 bt22_1 at22_2 bt22_2
  atH1_1 btH1_1 atH1_2 btH1_2 atH2_1 btH2_1 atH2_2 btH2_2
  ate1_1 bte1_1 ate1_2 bte1_2 ate2_1 bte2_1 ate2_2 bte2_2
  : kinetic_parameters.

Lemma kinetic_parameters_nonneg :
  Forall (fun '(a, b, _) => 0 <= a /\ 0 <= b) KineticConstantTable.
Proof.
  unfold KineticConstantTable.
  repeat (apply Forall_cons;
          [split; autounfold with kinetic_parameters; lra |]).
  apply Forall_nil.
Qed.

Lemma evaluated_constant_monotone (a b t1 t2 : R) :
  0 <= a -> 0 <= b -> 0 < t1 -> t1 < t2 ->
  evaluated_constant a b t1 <= evaluated_constant a b t2 /\
  (evaluated_constant a b t1 <> 0 ->
   evaluated_constant a b t1 < evaluated_constant a b t2).
Proof.
  intros Ha Hb H1 H12. unfold evaluated_constant.
  rewrite (Math_exp_of_nonneg a Ha), (Math_exp_of_nonneg b Hb).
  pose proof (exp_pos a) as Hea. pose proof (exp_pos b) as Heb.
  assert (Harg : - exp b / t1 < - exp b / t2).
  { assert (Hinv : / t2 < / t1) by (apply Rinv_lt_contravar; nra).
    unfold Rdiv. nra. }
  split.
  - apply Rmult_le_compat_l; [lra | apply Math_exp_monotone; lra].
  - intros Hne. apply Rmult_lt_compat_l; [exact Hea |].
    apply Math_exp_strict; [exact Harg |].
    intros Hz. apply Hne. rewrite Hz. ring.
Qed.

Lemma evaluated_constant_range (a b temp : R) :
  0 <= a -> 0 <= b -> 0 < temp ->
  0 <= evaluated_constant a b temp < exp a /\
  (evaluated_constant a b temp = 0 <-> 1075 * ln 2 < exp b / temp) /\
  (evaluated_constant a b temp <> 0 ->
   evaluated_constant a b temp = arrhenius a b temp).
Proof.
  intros Ha Hb Ht. rewrite (evaluated_constant_cases a b temp Ha Hb).
  pose proof (arrhenius_pos a b temp) as Hpos.
  pose proof (arrhenius_below_prefactor a b temp Ht) as Hlt.
  pose proof (exp_pos a) as Hea.
  destruct (Rlt_dec (1075 * ln 2) (exp b / temp)) as [Hu | Hu].
  - repeat split; try lra; try tauto.
  - repeat split; try lra; try tauto.
Qed.

(** [kp12_1] is 0 at every temperature up to 400 K: its exponent
    [exp(570.828) / T] is beyond the underflow bound. *)
Lemma kp12_1_underflows (temp : R) :
  0 < temp -> temp <= 400 -> evaluated_constant ap12_1 bp12_1 temp = 0.
Proof.
  intros Ht H400.
  apply (evaluated_constant_range ap12_1 bp12_1 temp);
    [unfold ap12_1; lra | unfold bp12_1; lra | exact Ht |].
  pose proof ln_2_bounds as Hln.
  assert (Hbig : 430000 < exp bp12_1).
  { unfold bp12_1.
    replace 570.828 with (190.276 + 190.276 + 190.276) by lra.
    rewrite !exp_plus.
    pose proof (exp_ineq1_le 190.276) as H1. nra. }
  pose proof (Rinv_0_lt_compat _ Ht) as Hinv.
  assert (Hone : temp * / temp = 1) by (apply Rinv_r; lra).
  unfold Rdiv. nra.
Qed.

(** [ka], by contrast, is evaluated without underflow at 363.15 K. *)
Example ka_does_not_underflow :
  evaluated_constant aka bka 363.15 = arrhenius aka bka 363.15 /\
  0 < evaluated_constant aka bka 363.15.
Proof.
  assert (Hne : evaluated_constant aka bka 363.15 <> 0).
  { intros Hz.
    apply (evaluated_constant_range aka bka 363.15) in Hz;
      [| unfold aka; lra | unfold bka; lra | lra].
    pose proof ln_2_bounds as Hln.
    assert (Hb : exp bka <= 27).
    { assert (H3 : exp bka <= exp 3).
      { destruct (Rle_lt_dec 3 bka) as [Hge | Hlt];
          [unfold bka in Hge; lra | left; apply exp_increasing; exact Hlt]. }
      replace 3 with (1 + 1 + 1) in H3 by lra. rewrite !exp_plus in H3.
      pose proof exp_le_3. pose proof (exp_pos 1). nra. }
    unfold Rdiv in Hz. lra. }
  split.
  - apply (evaluated_constant_range aka bka 363.15);
      [unfold aka; lra | unfold bka; lra | lra | exact Hne].
  - pose proof (Math_exp_nonneg aka).
    destruct (evaluated_constant_range aka bka 363.15) as [[H0 _] _];
      [unfold aka; lra | unfold bka; lra | lra |]. lra.
Qed.

(** C9, the claim as written fails: the propagation constant [kp12_1]
    is evaluated to 0 at 300 K and again at 400 K, so it is not strictly
    greater at the higher temperature. *)
Lemma kp12_1_not_strictly_increasing :
  0 < T (loop_reactor 300) /\
  T (loop_reactor 300) < T (loop_reactor 400) /\
  In (ap12_1, bp12_1, kp12_1) KineticConstantTable /\
  evaluated_constant ap12_1 bp12_1 (T (loop_reactor 300)) = 0 /\
  evaluated_constant ap12_1 bp12_1 (T (loop_reactor 400)) = 0 /\
  ~ (evaluated_constant ap12_1 bp12_1 (T (loop_reactor 300))
     < evaluated_constant ap12_1 bp12_1 (T (loop_reactor 400))).
Proof.
  change (T (loop_reactor 300)) with 300.
  change (T (loop_reactor 400)) with 400.
  assert (H300 : evaluated_constant ap12_1 bp12_1 300 = 0)
    by (apply kp12_1_underflows; lra).
  assert (H400 : evaluated_constant ap12_1 bp12_1 400 = 0)
    by (apply kp12_1_underflows; lra).
  rewrite H300, H400.
  split; [lra |]. split; [lra |].
  split; [unfold KineticConstantTable;
          repeat first [left; reflexivity | right] |].
  split; [reflexivity |]. split; [reflexivity | lra].
Qed.

(** C9, amended. For temperatures [0 < T1 < T2] every rate constant of
    the engine, as evaluated, is at [T2] no smaller than at [T1]; it is
    strictly greater whenever its exponent [exp(b) / T1] is at most 700
    (the value at [T1] is then a normal double); and it is 0 at [T1]
    exactly when the exponent exceeds the underflow bound
    [1075 * ln 2] of [Math.exp]. *)
Theorem evaluated_constants_increase_with_temperature
    (i1 i2 : ZieglerModelInputs) :
  0 < T i1 -> T i1 < T i2 ->
  Forall (fun '(a, b, _) =>
            evaluated_constant a b (T i1) <= evaluated_constant a b (T i2) /\
            (exp b / T i1 <= 700 ->
             evaluated_constant a b (T i1) < evaluated_constant a b (T i2)) /\
            (evaluated_constant a b (T i1) = 0
             <-> 1075 * ln 2 < exp b / T i1))
         KineticConstantTable.
Proof.
  intros H1 H12.
  eapply Forall_impl; [| exact kinetic_parameters_nonneg].
  intros [[a b] k] [Ha Hb].
  destruct (evaluated_constant_monotone a b (T i1) (T i2) Ha Hb H1 H12)
    as [Hle Hlt].
  destruct (evaluated_constant_range a b (T i1) Ha Hb H1) as (_ & Hzero & _).
  split; [exact Hle | split; [| exact Hzero]].
  intros Hnormal. apply Hlt. intros Hz. apply Hzero in Hz.
  pose proof underflow_bound_above_700. lra.
Qed.

Lemma evaluated_constants_increase_with_temperature_witness :
  0 < T (loop_reactor 300) /\ T (loop_reactor 300) < T (loop_reactor 400) /\
  Forall (fun '(a, b, _) =>
            evaluated_constant a b (T (loop_reactor 300))
              <= evaluated_constant a b (T (loop_reactor 400)) /\
            (exp b / T (loop_reactor 300) <= 700 ->
             evaluated_constant a b (T (loop_reactor 300))
               < evaluated_constant a b (T (loop_reactor 400))) /\
            (evaluated_constant a b (T (loop_reactor 300)) = 0
             <-> 1075 * ln 2 < exp b / T (loop_reactor 300)))
         KineticConstantTable.
Proof.
  assert (H1 : 0 < T (loop_reactor 300))
    by (unfold T; cbn [temperature loop_reactor]; lra).
  assert (H12 : T (loop_reactor 300) < T (loop_reactor 400))
    by (unfold T; cbn [temperature loop_reactor]; lra).
  split; [exact H1 | split; [exact H12 |]].
  exact (evaluated_constants_increase_with_temperature _ _ H1 H12).
Defined.

(** ** Stage 3: the pseudo-kinetic aggregator *)

(** C2. On each site the propagation and the transfer-to-monomer
    pseudo-constants are the four-term sum weighted by [f] and [phi], and
    the transfer-to-hydrogen and termination pseudo-constants are the
    two-term sum weighted by [phi] alone. *)
Theorem pseudo_constants_follow_blends (i : ZieglerModelInputs) :
  pseudo_kp_1 i
    = kp11_1 i * f1 i * phi1_1 i + kp21_1 i * f1 i * phi2_1 i
      + kp22_1 i * f2 i * phi2_1 i + kp12_1 i * phi1_1 i * f2 i /\
  pseudo_kp_2 i
    = four_term_blend (kp11_2 i) (kp21_2 i) (kp22_2 i) (kp12_2 i)
                      (f1 i) (f2 i) (phi1_2 i) (phi2_2 i) /\
  pseudo_kt_1 i
    = four_term_blend (kt11_1 i) (kt21_1 i) (kt22_1 i) (kt12_1 i)
                      (f1 i) (f2 i) (phi1_1 i) (phi2_1 i) /\
  pseudo_kt_2 i
    = four_term_blend (kt11_2 i) (kt21_2 i) (kt22_2 i) (kt12_2 i)
                      (f1 i) (f2 i) (phi1_2 i) (phi2_2 i) /\
  pseudo_ktH_1 i = two_term_blend (ktH1_1 i) (ktH2_1 i) (phi1_1 i) (phi2_1 i) /\
  pseudo_ktH_2 i = two_term_blend (ktH1_2 i) (ktH2_2 i) (phi1_2 i) (phi2_2 i) /\
  pseudo_kte_1 i = two_term_blend (kte1_1 i) (kte2_1 i) (phi1_1 i) (phi2_1 i) /\
  pseudo_kte_2 i = two_term_blend (kte1_2 i) (kte2_2 i) (phi1_2 i) (phi2_2 i).
Proof.
  unfold four_term_blend, two_term_blend.
  unfold pseudo_kp_1, pseudo_kp_2, pseudo_kt_1, pseudo_kt_2.
  unfold pseudo_ktH_1, pseudo_ktH_2, pseudo_kte_1, pseudo_kte_2.
  repeat split.
Qed.

(** ** Stage 4: the rate assembler and the returned record *)

(** C10. The catalyst rate [RS] and the cocatalyst rate [RC] are the same
    expression [- ka*S*c - kaa*c*S], so [rateCatalyst] and
    [rateCocatalyst] coincide for every input. *)
Theorem catalyst_and_cocatalyst_rates_coincide (i : ZieglerModelInputs) :
  rateCatalyst (outputs i) = rateCocatalyst (outputs i) /\
  RS i = - ka i * S i * c i - kaa i * c i * S i /\
  RC i = - ka i * S i * c i - kaa i * c i * S i.
Proof.
  unfold outputs, RS, RC. cbn [rateCatalyst rateCocatalyst].
  repeat split.
Qed.

(** C4. The returned polymer production rate is
    [(- RM1 * MW1 - RM2 * MW2) * Volume], with [MW1 = MC2] and
    [MW2 = MC6]; whenever the volume is not zero, [RM1] and [RM2] are
    recovered from the output as [rateEthylene / Volume] and
    [rateHexene / Volume]. *)
Theorem polymer_mass_balance (i : ZieglerModelInputs) :
  polymerProductionRate (outputs i) = (- RM1 i * MC2 - RM2 i * MC6) * V i /\
  (V i <> 0 ->
   RM1 i = rateEthylene (outputs i) / V i /\
   RM2 i = rateHexene (outputs i) / V i /\
   polymerProductionRate (outputs i)
     = (- (rateEthylene (outputs i) / V i) * MC2
        - (rateHexene (outputs i) / V i) * MC6) * V i).
Proof.
  unfold outputs. cbn [polymerProductionRate rateEthylene rateHexene].
  unfold polymerRateGrams, polymerRate_M1_consumption,
    polymerRate_M2_consumption.
  split; [ring |].
  intros HV. repeat split; field; exact HV.
Qed.

Lemma polymer_mass_balance_witness :
  V (loop_reactor 363.15) <> 0 /\
  RM1 (loop_reactor 363.15)
    = rateEthylene (outputs (loop_reactor 363.15)) / V (loop_reactor 363.15) /\
  RM2 (loop_reactor 363.15)
    = rateHexene (outputs (loop_reactor 363.15)) / V (loop_reactor 363.15).
Proof.
  assert (HV : V (loop_reactor 363.15) <> 0)
    by (unfold V; cbn [volume loop_reactor]; lra).
  destruct (polymer_mass_balance (loop_reactor 363.15)) as [_ Hrec].
  destruct (Hrec HV) as [H1 [H2 _]].
  split; [exact HV | split; [exact H1 | exact H2]].
Defined.

(** ** Stage 2: composition and partition fractions *)

(** An epsilon-guarded quotient of non-negative quantities lies in [0,1]. *)
Lemma guarded_fraction_bounds (x y : R) :
  0 <= x -> 0 <= y -> 0 <= x / (x + y + 1E-25) <= 1.
Proof.
  intros Hx Hy.
  assert (Hd : 0 < x + y + 1E-25) by lra.
  pose proof (Rinv_0_lt_compat _ Hd) as Hinv.
  assert (Hone : (x + y + 1E-25) * / (x + y + 1E-25) = 1)
    by (apply Rinv_r; lra).
  unfold Rdiv. split; nra.
Qed.

(** The two monomer fractions miss 1 by exactly the guard's share of the
    denominator. *)
Lemma monomer_fraction_sum (i : ZieglerModelInputs) :
  M1 i + M2 i + 1E-25 <> 0 ->
  f1 i + f2 i = 1 - 1E-25 / (M1 i + M2 i + 1E-25).
Proof.
  intros Hd. unfold f1, f2, totalMonomerConcentration. field.
  intros H. apply Hd. lra.
Qed.

Lemma zero_state_all_zero (vol temp flag : R) :
  all_concentrations_zero (zero_state vol temp flag).
Proof. unfold all_concentrations_zero. cbn. repeat split. Qed.

(** C5, the claim as written fails: in the all-zero state the second
    end-group fractions are 1, not 0. *)
Lemma zero_state_phi2_is_one :
  all_concentrations_zero (zero_state 1 363.15 1) /\
  0 < temperature (zero_state 1 363.15 1) /\
  phi2_1 (zero_state 1 363.15 1) = 1 /\ phi2_2 (zero_state 1 363.15 1) = 1 /\
  ~ (f1 (zero_state 1 363.15 1) = 0 /\ f2 (zero_state 1 363.15 1) = 0 /\
     phi1_1 (zero_state 1 363.15 1) = 0 /\ phi1_2 (zero_state 1 363.15 1) = 0 /\
     phi2_1 (zero_state 1 363.15 1) = 0 /\ phi2_2 (zero_state 1 363.15 1) = 0).
Proof.
  assert (P1 : phi2_1 (zero_state 1 363.15 1) = 1).
  { unfold phi2_1, phi1_1, N1_1, N2_1. cbn [zero_state livingPolymerEnd_z1_1
      livingPolymerEnd_z2_1]. unfold Rdiv. ring. }
  assert (P2 : phi2_2 (zero_state 1 363.15 1) = 1).
  { unfold phi2_2, phi1_2, N1_2, N2_2. cbn [zero_state livingPolymerEnd_z1_2
      livingPolymerEnd_z2_2]. unfold Rdiv. ring. }
  split; [apply zero_state_all_zero |].
  split; [cbn [temperature zero_state]; lra |].
  split; [exact P1 | split; [exact P2 |]].
  intros (_ & _ & _ & _ & H & _). rewrite P1 in H. lra.
Qed.

(** C5, amended. With every concentration field 0 and a positive
    temperature, nothing the body divides by is zero; [f1], [f2],
    [phi1_1] and [phi1_2] are 0 while [phi2_1] and [phi2_2] are 1; and
    the returned monomer, hydrogen, catalyst, cocatalyst and
    second-catalyst-species rates are all 0. *)
Theorem zero_state_fractions_and_rates (i : ZieglerModelInputs) :
  all_concentrations_zero i -> 0 < temperature i ->
  Forall (fun d => d <> 0) (divisors i) /\
  f1 i = 0 /\ f2 i = 0 /\ phi1_1 i = 0 /\ phi1_2 i = 0 /\
  phi2_1 i = 1 /\ phi2_2 i = 1 /\
  rateEthylene (outputs i) = 0 /\ rateHexene (outputs i) = 0 /\
  rateHydrogen (outputs i) = 0 /\ rateCatalyst (outputs i) = 0 /\
  rateCocatalyst (outputs i) = 0 /\ rateCr6 (outputs i) = 0.
Proof.
  intros Hz HT.
  unfold outputs, divisors.
  cbn [rateEthylene rateHexene rateHydrogen rateCatalyst rateCocatalyst
       rateCr6].
  unfold RM1, RM2, RH2, RS, RC, RS1.
  unfold phi2_1, phi2_2, phi1_1, phi1_2, f1, f2, totalMonomerConcentration.
  zero_concentrations i Hz.
  split.
  - unfold T. repeat (apply Forall_cons; [lra |]). apply Forall_nil.
  - unfold Rdiv. repeat split; ring.
Qed.

Lemma zero_state_fractions_and_rates_witness :
  phi2_1 (zero_state 100000 363.15 1) = 1 /\
  rateEthylene (outputs (zero_state 100000 363.15 1)) = 0 /\
  rateHydrogen (outputs (zero_state 100000 363.15 1)) = 0.
Proof.
  assert (HT : 0 < temperature (zero_state 100000 363.15 1))
    by (cbn [temperature zero_state]; lra).
  pose proof (zero_state_fractions_and_rates _
                (zero_state_all_zero 100000 363.15 1) HT) as H.
  repeat split; apply H.
Defined.




(** ** The returned record *)

(** C7, the claim as written fails: the ethylene rate [RM1] is a
    concentration-basis rate, yet in a two-litre reactor no field of the
    returned record holds it unscaled. *)
Lemma unscaled_rate_not_returned :
  In (RM1 initiation_only_state) (concentration_rates initiation_only_state) /\
  In (RM1 initiation_only_state * V initiation_only_state)
     (output_fields (outputs initiation_only_state)) /\
  ~ In (RM1 initiation_only_state)
       (output_fields (outputs initiation_only_state)).
Proof.
  split; [left; reflexivity |].
  split; [right; right; left; reflexivity |].
  pose proof (arrhenius_pos ai1_1 bi1_1 (T initiation_only_state)) as Hk.
  change (0 < ki1_1 initiation_only_state) in Hk.
  intros Hin. unfold output_fields, outputs in Hin.
  cbn [In polymerProductionRate rateNitrogen rateEthylene rateEthane
       ratePropane rateButene rateIsobutane rateHexene rateHexane rateWater
       rateCarbonMonoxide rateMethane rateHydrogen rateEthylenesegment
       rateHexenesegment rateCatalyst rateCocatalyst rateCr6
       rateDeadPolymerMoment0_x0_1 rateDeadPolymerMoment0_x0_2
       rateDeadPolymerMoment1_x1_1 rateDeadPolymerMoment1_x1_2
       rateDeadPolymerMoment2_x2_1 rateDeadPolymerMoment2_x2_2
       rateLivingPolymerMoment0_y0_1 rateLivingPolymerMoment0_y0_2
       rateLivingPolymerMoment1_y1_1 rateLivingPolymerMoment1_y1_2
       rateLivingPolymerMoment2_y2_1 rateLivingPolymerMoment2_y2_2
       rateActiveSites_z0_1 rateActiveSites_z0_2
       rateLivingPolymerEnd_z1_1 rateLivingPolymerEnd_z1_2
       rateLivingPolymerEnd_z2_1 rateLivingPolymerEnd_z2_2
       ratePolymerMass] in Hin.
  unfold_rates. unfold_inputs.
  cbn [initiation_only_state hydrogen ethylene hexene catalyst cr6 cocatalyst
       volume activeSites_z0_1 activeSites_z0_2
       livingPolymerEnd_z1_1 livingPolymerEnd_z1_2
       livingPolymerEnd_z2_1 livingPolymerEnd_z2_2
       livingPolymerMoment0_y0_1 livingPolymerMoment0_y0_2
       livingPolymerMoment1_y1_1 livingPolymerMoment1_y1_2
       livingPolymerMoment2_y2_1 livingPolymerMoment2_y2_2] in Hin.
  repeat (destruct Hin as [Hin | Hin]; [lra |]).
  exact Hin.
Qed.

(** C7, amended. Each concentration-basis rate is returned once, multiplied
    by the reactor volume; the fields of untracked species are 0; the
    polymer mass rate fills both [polymerProductionRate] and
    [ratePolymerMass].  The concentration-basis rates do not depend on the
    volume, so every returned rate, the mass rate included, carries the
    volume as a single factor. *)
Theorem outputs_are_volume_scaled_once (i : ZieglerModelInputs) :
  absolute_rate_fields (outputs i)
    = map (fun r => r * V i) (concentration_rates i) /\
  untracked_species_fields (outputs i) = repeat 0 11 /\
  polymerProductionRate (outputs i)
    = (- RM1 i * MC2 + - RM2 i * MC6) * V i /\
  ratePolymerMass (outputs i) = polymerProductionRate (outputs i) /\
  (forall vol,
      concentration_rates (with_volume vol i) = concentration_rates i) /\
  (forall vol,
      output_fields (outputs (with_volume vol i))
      = map (fun x => x * vol) (output_fields (outputs (with_volume 1 i)))).
Proof.
  split; [reflexivity |]. split; [reflexivity |].
  split; [reflexivity |]. split; [reflexivity |].
  split.
  - intros vol. reflexivity.
  - intros vol. unfold output_fields, outputs.
    cbn [map polymerProductionRate rateNitrogen rateEthylene rateEthane
       ratePropane rateButene rateIsobutane rateHexene rateHexane rateWater
       rateCarbonMonoxide rateMethane rateHydrogen rateEthylenesegment
       rateHexenesegment rateCatalyst rateCocatalyst rateCr6
       rateDeadPolymerMoment0_x0_1 rateDeadPolymerMoment0_x0_2
       rateDeadPolymerMoment1_x1_1 rateDeadPolymerMoment1_x1_2
       rateDeadPolymerMoment2_x2_1 rateDeadPolymerMoment2_x2_2
       rateLivingPolymerMoment0_y0_1 rateLivingPolymerMoment0_y0_2
       rateLivingPolymerMoment1_y1_1 rateLivingPolymerMoment1_y1_2
       rateLivingPolymerMoment2_y2_1 rateLivingPolymerMoment2_y2_2
       rateActiveSites_z0_1 rateActiveSites_z0_2
       rateLivingPolymerEnd_z1_1 rateLivingPolymerEnd_z1_2
       rateLivingPolymerEnd_z2_1 rateLivingPolymerEnd_z2_2
       ratePolymerMass].
    change (V (with_volume vol i)) with vol.
    change (V (with_volume 1 i)) with 1.
    change (polymerRateGrams (with_volume vol i))
      with ((- RM1 i * MC2 + - RM2 i * MC6) * vol).
    change (polymerRateGrams (with_volume 1 i))
      with ((- RM1 i * MC2 + - RM2 i * MC6) * 1).
    repeat (apply (f_equal2 (@cons R));
            [ first [ ring
                    | match goal with
                      | |- ?f (with_volume vol i) * vol = _ =>
                          change (f i * vol = f i * 1 * vol); ring
                      end ] |]).
    reflexivity.
Qed.

(** ** Failure behaviour *)

(** C1, the claim as written fails: at temperature 0 and at temperature
    -5 the call returns its record and raises nothing. *)
Lemma nonpositive_temperature_not_rejected :
  temperature (loop_reactor 0) = 0 /\
  temperature (loop_reactor (-5)) = -5 /\
  calculateReactionRates (loop_reactor 0) = Returned (outputs (loop_reactor 0)) /\
  calculateReactionRates (loop_reactor (-5))
    = Returned (outputs (loop_reactor (-5))) /\
  calculateReactionRates (loop_reactor 0) <> Raised InvalidTemperature /\
  calculateReactionRates (loop_reactor (-5)) <> Raised InvalidTemperature.
Proof.
  repeat split; discriminate.
Qed.

(** C1, amended. The function checks nothing about the temperature: for
    every input, whatever its temperature, it returns the record its
    formulas produce and raises no error. *)
Theorem calculateReactionRates_never_raises (i : ZieglerModelInputs) :
  calculateReactionRates i = Returned (outputs i) /\
  forall e : EngineError, calculateReactionRates i <> Raised e.
Proof.
  split; [reflexivity | intros e; discriminate].
Qed.

(** C8. On non-negative concentrations and a positive temperature the
    call returns: it yields the record of its formulas with no further
    validation, and nothing it divides by is zero, the all-zero state
    included. *)
Theorem calculateReactionRates_total (i : ZieglerModelInputs) :
  nonnegative_concentrations i -> 0 < temperature i ->
  calculateReactionRates i = Returned (outputs i) /\
  Forall (fun d => d <> 0) (divisors i).
Proof.
  intros Hnn HT. split; [reflexivity |].
  unfold nonnegative_concentrations in Hnn.
  unfold divisors, totalMonomerConcentration, M1, M2, N1_1, N2_1, N1_2,
    N2_2, T.
  repeat (apply Forall_cons; [lra |]). apply Forall_nil.
Qed.

Lemma calculateReactionRates_total_witness :
  nonnegative_concentrations (zero_state 1 363.15 1) /\
  0 < temperature (zero_state 1 363.15 1) /\
  calculateReactionRates (zero_state 1 363.15 1)
    = Returned (outputs (zero_state 1 363.15 1)) /\
  Forall (fun d => d <> 0) (divisors (zero_state 1 363.15 1)).
Proof.
  assert (Hnn : nonnegative_concentrations (zero_state 1 363.15 1))
    by (unfold nonnegative_concentrations; cbn; repeat split; lra).
  assert (HT : 0 < temperature (zero_state 1 363.15 1))
    by (cbn [temperature zero_state]; lra).
  split; [exact Hnn | split; [exact HT |]].
  exact (calculateReactionRates_total _ Hnn HT).
Defined.

(** ** Further properties of the rate engine *)

Lemma eth_values (i : ZieglerModelInputs) :
  eth i = 5.34329 \/ eth i = 1.13724 \/ eth i = 0.318066 \/
  eth i = 0.456617 \/ eth i = 0.
Proof.
  unfold eth.
  repeat (match goal with
          | |- context [Req_dec_T ?x ?y] => destruct (Req_dec_T x y)
          end); auto 6.
Qed.

Lemma eth_nonneg (i : ZieglerModelInputs) : 0 <= eth i.
Proof. destruct (eth_values i) as [H | [H | [H | [H | H]]]]; rewrite H; lra. Qed.

Lemma fractions_in_unit_interval (i : ZieglerModelInputs) :
  nonnegative_concentrations i ->
  (0 <= f1 i <= 1) /\ (0 <= f2 i <= 1) /\
  (0 <= phi1_1 i <= 1) /\ (0 <= phi2_1 i <= 1) /\
  (0 <= phi1_2 i <= 1) /\ (0 <= phi2_2 i <= 1).
Proof.
  unfold nonnegative_concentrations. intros Hnn.
  assert (Hf1 : 0 <= f1 i <= 1)
    by (unfold f1, totalMonomerConcentration, M1, M2;
        apply guarded_fraction_bounds; lra).
  assert (Hf2 : 0 <= f2 i <= 1).
  { unfold f2, totalMonomerConcentration, M1, M2.
    replace (ethylene i + hexene i + 1E-25)
      with (hexene i + ethylene i + 1E-25) by ring.
    apply guarded_fraction_bounds; lra. }
  assert (Hp1 : 0 <= phi1_1 i <= 1)
    by (unfold phi1_1, N1_1, N2_1; apply guarded_fraction_bounds; lra).
  assert (Hp2 : 0 <= phi1_2 i <= 1)
    by (unfold phi1_2, N1_2, N2_2; apply guarded_fraction_bounds; lra).
  unfold phi2_1, phi2_2. repeat split; lra.
Qed.

(** Names every rate constant of the input as a positive number. *)
Ltac constants_positive i :=
  pose proof (arrhenius_pos aethane bethane (T i) : 0 < kethane i);
  pose proof (arrhenius_pos aka bka (T i) : 0 < ka i);
  pose proof (arrhenius_pos akaa bkaa (T i) : 0 < kaa i);
  pose proof (arrhenius_pos akaH bkaH (T i) : 0 < kaH i);
  pose proof (arrhenius_pos ai1_1 bi1_1 (T i) : 0 < ki1_1 i);
  pose proof (arrhenius_pos ai1_2 bi1_2 (T i) : 0 < ki1_2 i);
  pose proof (arrhenius_pos ai2_1 bi2_1 (T i) : 0 < ki2_1 i);
  pose proof (arrhenius_pos ai2_2 bi2_2 (T i) : 0 < ki2_2 i);
  pose proof (arrhenius_pos ap11_1 bp11_1 (T i) : 0 < kp11_1 i);
  pose proof (arrhenius_pos ap11_2 bp11_2 (T i) : 0 < kp11_2 i);
  pose proof (arrhenius_pos ap12_1 bp12_1 (T i) : 0 < kp12_1 i);
  pose proof (arrhenius_pos ap12_2 bp12_2 (T i) : 0 < kp12_2 i);
  pose proof (arrhenius_pos ap21_1 bp21_1 (T i) : 0 < kp21_1 i);
  pose proof (arrhenius_pos ap21_2 bp21_2 (T i) : 0 < kp21_2 i);
  pose proof (arrhenius_pos ap22_1 bp22_1 (T i) : 0 < kp22_1 i);
  pose proof (arrhenius_pos ap22_2 bp22_2 (T i) : 0 < kp22_2 i);
  pose proof (arrhenius_pos at11_1 bt11_1 (T i) : 0 < kt11_1 i);
  pose proof (arrhenius_pos at11_2 bt11_2 (T i) : 0 < kt11_2 i);
  pose proof (arrhenius_pos at12_1 bt12_1 (T i) : 0 < kt12_1 i);
  pose proof (arrhenius_pos at12_2 bt12_2 (T i) : 0 < kt12_2 i);
  pose proof (arrhenius_pos at21_1 bt21_1 (T i) : 0 < kt21_1 i);
  pose proof (arrhenius_pos at21_2 bt21_2 (T i) : 0 < kt21_2 i);
  pose proof (arrhenius_pos at22_1 bt22_1 (T i) : 0 < kt22_1 i);
  pose proof (arrhenius_pos at22_2 bt22_2 (T i) : 0 < kt22_2 i);
  pose proof (arrhenius_pos atH1_1 btH1_1 (T i) : 0 < ktH1_1 i);
  pose proof (arrhenius_pos atH1_2 btH1_2 (T i) : 0 < ktH1_2 i);
  pose proof (arrhenius_pos atH2_1 btH2_1 (T i) : 0 < ktH2_1 i);
  pose proof (arrhenius_pos atH2_2 btH2_2 (T i) : 0 < ktH2_2 i);
  pose proof (arrhenius_pos ate1_1 bte1_1 (T i) : 0 < kte1_1 i);
  pose proof (arrhenius_pos ate1_2 bte1_2 (T i) : 0 < kte1_2 i);
  pose proof (arrhenius_pos ate2_1 bte2_1 (T i) : 0 < kte2_1 i);
  pose proof (arrhenius_pos ate2_2 bte2_2 (T i) : 0 < kte2_2 i).

(** Closes a goal [0 <= e] for a sum of products of non-negative atoms. *)
Ltac nonneg_product :=
  repeat first [ lra
               | apply Rmult_le_pos
               | apply Rplus_le_le_0_compat ].

(** At a positive temperature every rate constant, as evaluated, is
    non-negative and strictly below its pre-exponential factor [exp a];
    it is 0 exactly when its exponent [exp(b) / T] exceeds the underflow
    bound [1075 * ln 2] of [Math.exp]; and when the exponent is at most
    700 it is the value [exp a * exp (- exp b / T)] the engine's formula
    denotes. *)
Theorem evaluated_constants_range (i : ZieglerModelInputs) :
  0 < T i ->
  Forall (fun '(a, b, k) =>
            0 <= evaluated_constant a b (T i) < exp a /\
            (evaluated_constant a b (T i) = 0
             <-> 1075 * ln 2 < exp b / T i) /\
            (exp b / T i <= 700 ->
             evaluated_constant a b (T i) = k i /\
             0 < evaluated_constant a b (T i)))
         KineticConstantTable.
Proof.
  intros HT.
  assert (Hrange : Forall (fun '(a, b, _) =>
            0 <= evaluated_constant a b (T i) < exp a /\
            (evaluated_constant a b (T i) = 0
             <-> 1075 * ln 2 < exp b / T i) /\
            (exp b / T i <= 700 ->
             evaluated_constant a b (T i) = arrhenius a b (T i) /\
             0 < evaluated_constant a b (T i)))
         KineticConstantTable).
  { eapply Forall_impl; [| exact kinetic_parameters_nonneg].
    intros [[a b] k] [Ha Hb].
    destruct (evaluated_constant_range a b (T i) Ha Hb HT)
      as (Hr & Hzero & Heq).
    split; [exact Hr | split; [exact Hzero |]].
    intros Hnormal.
    assert (Hne : evaluated_constant a b (T i) <> 0).
    { intros Hz. apply Hzero in Hz.
      pose proof underflow_bound_above_700. lra. }
    split; [exact (Heq Hne) | lra]. }
  unfold KineticConstantTable in *.
  repeat (match goal with
          | H : Forall _ (_ :: _) |- _ =>
              apply Forall_cons_iff in H; destruct H as [? H]
          end).
  repeat (apply Forall_cons; [assumption |]).
  apply Forall_nil.
Qed.

Lemma evaluated_constants_range_witness :
  0 < T (loop_reactor 363.15) /\
  Forall (fun '(a, b, k) =>
            0 <= evaluated_constant a b (T (loop_reactor 363.15)) < exp a /\
            (evaluated_constant a b (T (loop_reactor 363.15)) = 0
             <-> 1075 * ln 2 < exp b / T (loop_reactor 363.15)) /\
            (exp b / T (loop_reactor 363.15) <= 700 ->
             evaluated_constant a b (T (loop_reactor 363.15))
             = k (loop_reactor 363.15) /\
             0 < evaluated_constant a b (T (loop_reactor 363.15))))
         KineticConstantTable.
Proof.
  assert (HT : 0 < T (loop_reactor 363.15))
    by (unfold T; cbn [temperature loop_reactor]; lra).
  split; [exact HT | exact (evaluated_constants_range _ HT)].
Defined.

(** The pseudo-constants of a site are non-negative. *)
Lemma pseudo_constants_nonneg (i : ZieglerModelInputs) :
  nonnegative_concentrations i ->
  0 <= pseudo_ki_1 i /\ 0 <= pseudo_ki_2 i /\
  0 <= pseudo_kp_1 i /\ 0 <= pseudo_kp_2 i /\
  0 <= pseudo_kt_1 i /\ 0 <= pseudo_kt_2 i /\
  0 <= pseudo_ktH_1 i /\ 0 <= pseudo_ktH_2 i /\
  0 <= pseudo_kte_1 i /\ 0 <= pseudo_kte_2 i.
Proof.
  intros Hnn.
  destruct (fractions_in_unit_interval i Hnn)
    as (Hf1 & Hf2 & Hp11 & Hp21 & Hp12 & Hp22).
  constants_positive i.
  unfold pseudo_ki_1, pseudo_ki_2, pseudo_kp_1, pseudo_kp_2, pseudo_kt_1,
    pseudo_kt_2, pseudo_ktH_1, pseudo_ktH_2, pseudo_kte_1, pseudo_kte_2.
  repeat split; nonneg_product.
Qed.

Lemma nonpos_times_nonneg (x v : R) : x <= 0 -> 0 <= v -> x * v <= 0.
Proof. intros Hx Hv. nra. Qed.

(** The concentration-basis rates of the consumed species are never
    positive on non-negative concentrations. *)
Lemma consumption_rates_nonpositive (i : ZieglerModelInputs) :
  nonnegative_concentrations i ->
  RM1 i <= 0 /\ RM2 i <= 0 /\ RH2 i <= 0 /\ RS i <= 0.
Proof.
  intros Hnn.
  destruct (fractions_in_unit_interval i Hnn)
    as (Hf1 & Hf2 & Hp11 & Hp21 & Hp12 & Hp22).
  pose proof (eth_nonneg i) as Heth.
  constants_positive i.
  unfold nonnegative_concentrations in Hnn.
  assert (HM1 : RM1 i <= 0).
  { unfold RM1, M1, N0_1, N0_2, Y0_1, Y0_2.
    assert (0 <= activeSites_z0_1 i * ethylene i * ki1_1 i)
      by nonneg_product.
    assert (0 <= activeSites_z0_2 i * ethylene i * ki1_2 i)
      by nonneg_product.
    assert (0 <= ethylene i * livingPolymerMoment0_y0_1 i
                 * (kp11_1 i * phi1_1 i + kt11_1 i * phi1_1 i
                    + kp21_1 i * phi2_1 i + kt21_1 i * phi2_1 i))
      by nonneg_product.
    assert (0 <= ethylene i * livingPolymerMoment0_y0_2 i
                 * (kp11_2 i * phi1_2 i + kt11_2 i * phi1_2 i
                    + kp21_2 i * phi2_2 i + kt21_2 i * phi2_2 i))
      by nonneg_product.
    lra. }
  assert (HM2 : RM2 i <= 0).
  { unfold RM2, M2, N0_1, N0_2, Y0_1, Y0_2.
    assert (0 <= activeSites_z0_1 i * hexene i * ki2_1 i)
      by nonneg_product.
    assert (0 <= activeSites_z0_2 i * hexene i * ki2_2 i)
      by nonneg_product.
    assert (0 <= hexene i * livingPolymerMoment0_y0_1 i
                 * (kp22_1 i * phi2_1 i + kt22_1 i * phi2_1 i
                    + kp12_1 i * phi1_1 i + kt12_1 i * phi1_1 i))
      by nonneg_product.
    assert (0 <= hexene i * livingPolymerMoment0_y0_2 i
                 * (kp22_2 i * phi2_2 i + kt22_2 i * phi2_2 i
                    + kp12_2 i * phi1_2 i + kt12_2 i * phi1_2 i))
      by nonneg_product.
    lra. }
  assert (HH2 : RH2 i <= 0).
  { unfold RH2, H2, S1, Y0_1, Y0_2.
    assert (0 <= livingPolymerMoment0_y0_1 i * hydrogen i
                 * (ktH1_1 i + ktH2_1 i)) by nonneg_product.
    assert (0 <= livingPolymerMoment0_y0_2 i * hydrogen i
                 * (ktH1_2 i + ktH2_2 i)) by nonneg_product.
    assert (0 <= kaH i * hydrogen i * cr6 i) by nonneg_product.
    assert (0 <= kethane i * hydrogen i * eth i) by nonneg_product.
    lra. }
  assert (HS : RS i <= 0).
  { unfold RS, S, c.
    assert (0 <= ka i * catalyst i * cocatalyst i) by nonneg_product.
    assert (0 <= kaa i * cocatalyst i * catalyst i) by nonneg_product.
    lra. }
  repeat split; assumption.
Qed.

(** With non-negative concentrations and a non-negative volume the
    monomer, hydrogen, catalyst and cocatalyst rates are never positive,
    and the polymer mass rate and the six dead-polymer moment rates are
    never negative. *)
Theorem consumption_and_production_signs (i : ZieglerModelInputs) :
  nonnegative_concentrations i -> 0 <= volume i ->
  rateEthylene (outputs i) <= 0 /\ rateHexene (outputs i) <= 0 /\
  rateHydrogen (outputs i) <= 0 /\
  rateCatalyst (outputs i) <= 0 /\ rateCocatalyst (outputs i) <= 0 /\
  0 <= polymerProductionRate (outputs i) /\
  0 <= rateDeadPolymerMoment0_x0_1 (outputs i) /\
  0 <= rateDeadPolymerMoment0_x0_2 (outputs i) /\
  0 <= rateDeadPolymerMoment1_x1_1 (outputs i) /\
  0 <= rateDeadPolymerMoment1_x1_2 (outputs i) /\
  0 <= rateDeadPolymerMoment2_x2_1 (outputs i) /\
  0 <= rateDeadPolymerMoment2_x2_2 (outputs i).
Proof.
  intros Hnn HV.
  destruct (fractions_in_unit_interval i Hnn)
    as (Hf1 & Hf2 & Hp11 & Hp21 & Hp12 & Hp22).
  destruct (pseudo_constants_nonneg i Hnn)
    as (_ & _ & _ & _ & Hkt1 & Hkt2 & HktH1 & HktH2 & Hkte1 & Hkte2).
  destruct (consumption_rates_nonpositive i Hnn) as (HM1 & HM2 & HH2 & HS).
  unfold nonnegative_concentrations in Hnn.
  assert (Hsink1 : 0 <= totalMonomerConcentration i * pseudo_kt_1 i
                        + pseudo_ktH_1 i * H2 i + pseudo_kte_1 i)
    by (unfold totalMonomerConcentration, M1, M2, H2; nonneg_product).
  assert (Hsink2 : 0 <= totalMonomerConcentration i * pseudo_kt_2 i
                        + pseudo_ktH_2 i * H2 i + pseudo_kte_2 i)
    by (unfold totalMonomerConcentration, M1, M2, H2; nonneg_product).
  unfold outputs.
  cbn [rateEthylene rateHexene rateHydrogen rateCatalyst rateCocatalyst
       polymerProductionRate rateDeadPolymerMoment0_x0_1
       rateDeadPolymerMoment0_x0_2 rateDeadPolymerMoment1_x1_1
       rateDeadPolymerMoment1_x1_2 rateDeadPolymerMoment2_x2_1
       rateDeadPolymerMoment2_x2_2].
  change (RC i) with (RS i).
  unfold polymerRateGrams, polymerRate_M1_consumption,
    polymerRate_M2_consumption, MC2, MC6,
    Rx0_1, Rx0_2, Rx1_1, Rx1_2, Rx2_1, Rx2_2,
    Y0_1, Y0_2, Y1_1, Y1_2, Y2_1, Y2_2, V.
  repeat split;
    first [ apply nonpos_times_nonneg; assumption
          | apply Rmult_le_pos; [nonneg_product | exact HV] ].
Qed.

Lemma consumption_and_production_signs_witness :
  rateEthylene (outputs (loop_reactor 363.15)) <= 0 /\
  0 <= polymerProductionRate (outputs (loop_reactor 363.15)).
Proof.
  assert (Hnn : nonnegative_concentrations (loop_reactor 363.15))
    by (unfold nonnegative_concentrations; cbn; repeat split; lra).
  assert (HV : 0 <= volume (loop_reactor 363.15))
    by (cbn [volume loop_reactor]; lra).
  pose proof (consumption_and_production_signs _ Hnn HV) as H.
  split; apply H.
Defined.



(** The reactor selector reaches the result through the hydrogen rate
    only: replacing it changes [rateHydrogen] by the auxiliary term
    [kethane * H2 * eth * V] and leaves every other field as it was; with
    no hydrogen the whole record is unchanged. *)
Theorem reactorFlag_only_affects_hydrogen (flag : R) (i : ZieglerModelInputs) :
  outputs (with_reactorFlag flag i)
    = with_rateHydrogen
        (rateHydrogen (outputs i)
         + kethane i * H2 i * (eth i - eth (with_reactorFlag flag i)) * V i)
        (outputs i) /\
  (hydrogen i = 0 -> outputs (with_reactorFlag flag i) = outputs i).
Proof.
  assert (HRH : RH2 (with_reactorFlag flag i) * V (with_reactorFlag flag i)
                = rateHydrogen (outputs i)
                  + kethane i * H2 i
                    * (eth i - eth (with_reactorFlag flag i)) * V i).
  { cbn [rateHydrogen outputs]. unfold RH2.
    change (Y0_1 (with_reactorFlag flag i)) with (Y0_1 i).
    change (Y0_2 (with_reactorFlag flag i)) with (Y0_2 i).
    change (H2 (with_reactorFlag flag i)) with (H2 i).
    change (S1 (with_reactorFlag flag i)) with (S1 i).
    change (V (with_reactorFlag flag i)) with (V i).
    change (ktH1_1 (with_reactorFlag flag i)) with (ktH1_1 i).
    change (ktH2_1 (with_reactorFlag flag i)) with (ktH2_1 i).
    change (ktH1_2 (with_reactorFlag flag i)) with (ktH1_2 i).
    change (ktH2_2 (with_reactorFlag flag i)) with (ktH2_2 i).
    change (kaH (with_reactorFlag flag i)) with (kaH i).
    change (kethane (with_reactorFlag flag i)) with (kethane i).
    ring. }
  assert (Hrec : outputs (with_reactorFlag flag i)
    = with_rateHydrogen
        (rateHydrogen (outputs i)
         + kethane i * H2 i * (eth i - eth (with_reactorFlag flag i)) * V i)
        (outputs i)).
  { unfold with_rateHydrogen. unfold outputs at 1. rewrite HRH.
    reflexivity. }
  split; [exact Hrec |].
  intros HH. rewrite Hrec.
  replace (rateHydrogen (outputs i)
           + kethane i * H2 i * (eth i - eth (with_reactorFlag flag i)) * V i)
    with (rateHydrogen (outputs i)) by (unfold H2; rewrite HH; ring).
  reflexivity.
Qed.

Lemma reactorFlag_only_affects_hydrogen_witness :
  outputs (with_reactorFlag 99 (zero_state 1 363.15 1))
    = outputs (zero_state 1 363.15 1).
Proof.
  apply (reactorFlag_only_affects_hydrogen 99 (zero_state 1 363.15 1)).
  reflexivity.
Defined.

(** An unrecognised reactor selector makes the auxiliary constant 0: the
    hydrogen rate is then the three remaining consumption terms, scaled
    by the volume. *)
Theorem unrecognised_reactorFlag_drops_side_reaction (i : ZieglerModelInputs) :
  reactorFlag i <> 1 -> reactorFlag i <> 2 ->
  reactorFlag i <> 3 -> reactorFlag i <> 4 ->
  eth i = 0 /\
  rateHydrogen (outputs i)
    = (- Y0_1 i * H2 i * (ktH1_1 i + ktH2_1 i)
       - Y0_2 i * H2 i * (ktH1_2 i + ktH2_2 i)
       - kaH i * H2 i * S1 i) * V i.
Proof.
  intros F1 F2 F3 F4.
  assert (He : eth i = 0).
  { unfold eth.
    destruct (Req_dec_T (reactorFlag i) 1); [contradiction |].
    destruct (Req_dec_T (reactorFlag i) 2); [contradiction |].
    destruct (Req_dec_T (reactorFlag i) 3); [contradiction |].
    destruct (Req_dec_T (reactorFlag i) 4); [contradiction |].
    reflexivity. }
  split; [exact He |].
  unfold outputs. cbn [rateHydrogen]. unfold RH2. rewrite He. ring.
Qed.

Lemma unrecognised_reactorFlag_drops_side_reaction_witness :
  eth (with_reactorFlag 99 (loop_reactor 363.15)) = 0.
Proof.
  apply (unrecognised_reactorFlag_drops_side_reaction
           (with_reactorFlag 99 (loop_reactor 363.15)));
    cbn [reactorFlag with_reactorFlag]; lra.
Defined.

(** Catalyst-site balance.  Activation moves sites from the two inactive
    species to the two active types without loss (the split constants
    sum to 1), so the four rates together lose exactly the initiation
    flux; on each site the end-group rates gain that site's initiation
    flux and lose only transfer to hydrogen and termination, the
    cross-propagation and transfer-to-monomer terms cancelling. *)
Theorem site_balance (i : ZieglerModelInputs) :
  teta1 + teta2 = 1 /\
  RS i + RS1 i + RN0_1 i + RN0_2 i
    = - (ki1_1 i * N0_1 i * M1 i + ki2_1 i * N0_1 i * M2 i
         + ki1_2 i * N0_2 i * M1 i + ki2_2 i * N0_2 i * M2 i) /\
  RN1_1 i + RN2_1 i
    = ki1_1 i * N0_1 i * M1 i + ki2_1 i * N0_1 i * M2 i
      - (ktH1_1 i * H2 i + kte1_1 i) * N1_1 i
      - (ktH2_1 i * H2 i + kte2_1 i) * N2_1 i /\
  RN1_2 i + RN2_2 i
    = ki1_2 i * N0_2 i * M1 i + ki2_2 i * N0_2 i * M2 i
      - (ktH1_2 i * H2 i + kte1_2 i) * N1_2 i
      - (ktH2_2 i * H2 i + kte2_2 i) * N2_2 i.
Proof.
  unfold RS, RS1, RN0_1, RN0_2, RN1_1, RN2_1, RN1_2, RN2_2, teta2.
  repeat split; ring.
Qed.

(** The rates of all catalyst-site species sum to minus the end groups
    lost to transfer to hydrogen and to termination. *)
Lemma site_balance_sum (i : ZieglerModelInputs) :
  RS i + RS1 i + RN0_1 i + RN0_2 i
  + RN1_1 i + RN2_1 i + RN1_2 i + RN2_2 i
  = - ((ktH1_1 i * H2 i + kte1_1 i) * N1_1 i
       + (ktH2_1 i * H2 i + kte2_1 i) * N2_1 i
       + (ktH1_2 i * H2 i + kte1_2 i) * N1_2 i
       + (ktH2_2 i * H2 i + kte2_2 i) * N2_2 i).
Proof.
  unfold RS, RS1, RN0_1, RN0_2, RN1_1, RN2_1, RN1_2, RN2_2, teta2. ring.
Qed.

(** With non-negative concentrations the total of all catalyst-site
    species (inactive, active and chain-carrying) never increases. *)
Theorem total_sites_never_increase (i : ZieglerModelInputs) :
  nonnegative_concentrations i ->
  RS i + RS1 i + RN0_1 i + RN0_2 i
  + RN1_1 i + RN2_1 i + RN1_2 i + RN2_2 i <= 0.
Proof.
  intros Hnn.
  rewrite site_balance_sum. constants_positive i.
  unfold nonnegative_concentrations in Hnn.
  unfold H2, N1_1, N2_1, N1_2, N2_2.
  assert (0 <= (ktH1_1 i * hydrogen i + kte1_1 i) * livingPolymerEnd_z1_1 i)
    by nonneg_product.
  assert (0 <= (ktH2_1 i * hydrogen i + kte2_1 i) * livingPolymerEnd_z2_1 i)
    by nonneg_product.
  assert (0 <= (ktH1_2 i * hydrogen i + kte1_2 i) * livingPolymerEnd_z1_2 i)
    by nonneg_product.
  assert (0 <= (ktH2_2 i * hydrogen i + kte2_2 i) * livingPolymerEnd_z2_2 i)
    by nonneg_product.
  lra.
Qed.

Lemma total_sites_never_increase_witness :
  RS (loop_reactor 363.15) + RS1 (loop_reactor 363.15)
  + RN0_1 (loop_reactor 363.15) + RN0_2 (loop_reactor 363.15)
  + RN1_1 (loop_reactor 363.15) + RN2_1 (loop_reactor 363.15)
  + RN1_2 (loop_reactor 363.15) + RN2_2 (loop_reactor 363.15) <= 0.
Proof.
  apply total_sites_never_increase.
  unfold nonnegative_concentrations; cbn; repeat split; lra.
Defined.

(** Moment balance.  On each site the living and dead moments of the
    same order together grow by initiation, propagation and transfer to
    monomer only: transfer to hydrogen and termination move chains from
    the living to the dead population and cancel in the sum, as does the
    transfer-to-monomer loss of the first moment. *)
Theorem living_plus_dead_moment_balance (i : ZieglerModelInputs) :
  RY0_1 i + Rx0_1 i
    = N0_1 i * totalMonomerConcentration i * pseudo_ki_1 i
      + Y0_1 i * totalMonomerConcentration i * pseudo_kt_1 i /\
  RY0_2 i + Rx0_2 i
    = N0_2 i * totalMonomerConcentration i * pseudo_ki_2 i
      + Y0_2 i * totalMonomerConcentration i * pseudo_kt_2 i /\
  RY1_1 i + Rx1_1 i
    = N0_1 i * totalMonomerConcentration i * pseudo_ki_1 i
      + totalMonomerConcentration i * Y0_1 i
        * (pseudo_kp_1 i + pseudo_kt_1 i) /\
  RY1_2 i + Rx1_2 i
    = N0_2 i * totalMonomerConcentration i * pseudo_ki_2 i
      + totalMonomerConcentration i * Y0_2 i
        * (pseudo_kp_2 i + pseudo_kt_2 i) /\
  RY2_1 i + Rx2_1 i
    = N0_1 i * totalMonomerConcentration i * pseudo_ki_1 i
      + totalMonomerConcentration i * Y0_1 i
        * (pseudo_kp_1 i + pseudo_kt_1 i)
      + 2 * totalMonomerConcentration i * pseudo_kp_1 i * Y1_1 i /\
  RY2_2 i + Rx2_2 i
    = N0_2 i * totalMonomerConcentration i * pseudo_ki_2 i
      + totalMonomerConcentration i * Y0_2 i
        * (pseudo_kp_2 i + pseudo_kt_2 i)
      + 2 * totalMonomerConcentration i * pseudo_kp_2 i * Y1_2 i.
Proof.
  unfold RY0_1, RY0_2, Rx0_1, Rx0_2, RY1_1, RY1_2, Rx1_1, Rx1_2,
    RY2_1, RY2_2, Rx2_1, Rx2_2.
  repeat split; ring.
Qed.

(** Monomer-unit balance.  The first moments of both sites, living and
    dead together, grow at the rate at which the two monomers are
    consumed, multiplied by [f1 + f2]: the pseudo-constants account for
    every initiation, propagation and transfer-to-monomer term of the
    monomer rates, and the two sides differ only through the guard in
    the mole fractions. *)
Theorem first_moments_match_monomer_consumption (i : ZieglerModelInputs) :
  RY1_1 i + Rx1_1 i + RY1_2 i + Rx1_2 i
  = - (RM1 i + RM2 i) * (f1 i + f2 i).
Proof.
  unfold RY1_1, RY1_2, Rx1_1, Rx1_2, RM1, RM2,
    pseudo_ki_1, pseudo_ki_2, pseudo_kp_1, pseudo_kp_2,
    pseudo_kt_1, pseudo_kt_2, f1, f2, totalMonomerConcentration, Rdiv.
  ring.
Qed.

(** The polymer mass rate is the negated molecular-weight sum of the two
    returned monomer rates, for every input, zero volume included; both
    mass fields carry it. *)
Theorem polymer_mass_from_returned_rates (i : ZieglerModelInputs) :
  polymerProductionRate (outputs i)
    = - (MC2 * rateEthylene (outputs i) + MC6 * rateHexene (outputs i)) /\
  ratePolymerMass (outputs i)
    = - (MC2 * rateEthylene (outputs i) + MC6 * rateHexene (outputs i)).
Proof.
  unfold outputs.
  cbn [polymerProductionRate ratePolymerMass rateEthylene rateHexene].
  unfold polymerRateGrams, polymerRate_M1_consumption,
    polymerRate_M2_consumption.
  split; ring.
Qed.

(** A two-term blend with weights [t] and [1 - t] lies between its two
    constants. *)
Lemma two_term_between (k1 k2 t : R) :
  0 <= t <= 1 ->
  Rmin k1 k2 <= k1 * t + k2 * (1 - t) <= Rmax k1 k2.
Proof.
  intros Ht. unfold Rmin, Rmax.
  destruct (Rle_dec k1 k2); split; nra.
Qed.

(** A four-term blend whose weights are products of fractions with
    [fa + fb <= 1] and [phia + phib = 1] stays below any bound of its
    four constants. *)
Lemma four_term_below (k11 k21 k22 k12 fa fb phia phib bound : R) :
  0 <= fa -> 0 <= fb -> fa + fb <= 1 ->
  0 <= phia -> 0 <= phib -> phia + phib = 1 ->
  0 <= bound ->
  k11 <= bound -> k21 <= bound -> k22 <= bound -> k12 <= bound ->
  k11 * fa * phia + k21 * fa * phib + k22 * fb * phib + k12 * phia * fb
    <= bound.
Proof.
  intros Hfa Hfb Hf Hpa Hpb Hp Hb H11 H21 H22 H12.
  assert (W1 : 0 <= fa * phia) by (apply Rmult_le_pos; assumption).
  assert (W2 : 0 <= fa * phib) by (apply Rmult_le_pos; assumption).
  assert (W3 : 0 <= fb * phib) by (apply Rmult_le_pos; assumption).
  assert (W4 : 0 <= phia * fb) by (apply Rmult_le_pos; assumption).
  assert (E1 : k11 * fa * phia <= bound * (fa * phia))
    by (rewrite Rmult_assoc; apply Rmult_le_compat_r; assumption).
  assert (E2 : k21 * fa * phib <= bound * (fa * phib))
    by (rewrite Rmult_assoc; apply Rmult_le_compat_r; assumption).
  assert (E3 : k22 * fb * phib <= bound * (fb * phib))
    by (rewrite Rmult_assoc; apply Rmult_le_compat_r; assumption).
  assert (E4 : k12 * phia * fb <= bound * (phia * fb))
    by (rewrite Rmult_assoc; apply Rmult_le_compat_r; assumption).
  assert (Hw : fa * phia + fa * phib + fb * phib + phia * fb = fa + fb)
    by (replace phib with (1 - phia) by lra; ring).
  assert (Hbw : bound * (fa + fb) <= bound) by nra.
  rewrite <- Hw in Hbw. lra.
Qed.

(** The pseudo-constants are weighted averages: on non-negative
    concentrations each transfer-to-hydrogen and termination
    pseudo-constant lies between its two elementary constants, and each
    propagation and transfer-to-monomer pseudo-constant lies between 0
    and the largest of its four. *)
Theorem pseudo_constants_bounded_by_elementary (i : ZieglerModelInputs) :
  nonnegative_concentrations i ->
  (Rmin (ktH1_1 i) (ktH2_1 i) <= pseudo_ktH_1 i <= Rmax (ktH1_1 i) (ktH2_1 i)) /\
  (Rmin (ktH1_2 i) (ktH2_2 i) <= pseudo_ktH_2 i <= Rmax (ktH1_2 i) (ktH2_2 i)) /\
  (Rmin (kte1_1 i) (kte2_1 i) <= pseudo_kte_1 i <= Rmax (kte1_1 i) (kte2_1 i)) /\
  (Rmin (kte1_2 i) (kte2_2 i) <= pseudo_kte_2 i <= Rmax (kte1_2 i) (kte2_2 i)) /\
  (0 <= pseudo_kp_1 i
     <= Rmax (Rmax (kp11_1 i) (kp21_1 i)) (Rmax (kp22_1 i) (kp12_1 i))) /\
  (0 <= pseudo_kp_2 i
     <= Rmax (Rmax (kp11_2 i) (kp21_2 i)) (Rmax (kp22_2 i) (kp12_2 i))) /\
  (0 <= pseudo_kt_1 i
     <= Rmax (Rmax (kt11_1 i) (kt21_1 i)) (Rmax (kt22_1 i) (kt12_1 i))) /\
  (0 <= pseudo_kt_2 i
     <= Rmax (Rmax (kt11_2 i) (kt21_2 i)) (Rmax (kt22_2 i) (kt12_2 i))).
Proof.
  intros Hnn.
  destruct (fractions_in_unit_interval i Hnn)
    as (Hf1 & Hf2 & Hp11 & Hp21 & Hp12 & Hp22).
  destruct (pseudo_constants_nonneg i Hnn)
    as (_ & _ & Hkp1 & Hkp2 & Hkt1 & Hkt2 & _).
  assert (Hfs : f1 i + f2 i <= 1).
  { unfold nonnegative_concentrations in Hnn.
    rewrite monomer_fraction_sum by (unfold M1, M2; lra).
    assert (0 < 1E-25 / (M1 i + M2 i + 1E-25))
      by (apply Rdiv_lt_0_compat; unfold M1, M2; lra).
    lra. }
  assert (Hs1 : phi1_1 i + phi2_1 i = 1) by (unfold phi2_1; ring).
  assert (Hs2 : phi1_2 i + phi2_2 i = 1) by (unfold phi2_2; ring).
  assert (Hfour : forall k11 k21 k22 k12 fa fb phia phib,
             0 < k11 -> 0 <= fa -> 0 <= fb -> fa + fb <= 1 ->
             0 <= phia -> 0 <= phib -> phia + phib = 1 ->
             k11 * fa * phia + k21 * fa * phib + k22 * fb * phib
             + k12 * phia * fb
               <= Rmax (Rmax k11 k21) (Rmax k22 k12)).
  { intros k11 k21 k22 k12 fa fb phia phib Hk Hfa Hfb Hf Hpa Hpb Hp.
    pose proof (Rmax_l k11 k21). pose proof (Rmax_r k11 k21).
    pose proof (Rmax_l k22 k12). pose proof (Rmax_r k22 k12).
    pose proof (Rmax_l (Rmax k11 k21) (Rmax k22 k12)).
    pose proof (Rmax_r (Rmax k11 k21) (Rmax k22 k12)).
    apply four_term_below; lra. }
  constants_positive i.
  unfold pseudo_ktH_1, pseudo_ktH_2, pseudo_kte_1, pseudo_kte_2.
  unfold pseudo_kp_1, pseudo_kp_2, pseudo_kt_1, pseudo_kt_2 in *.
  repeat split;
    first [ assumption
          | apply Hfour; lra
          | unfold phi2_1; apply two_term_between; assumption
          | unfold phi2_2; apply two_term_between; assumption ].
Qed.

Lemma pseudo_constants_bounded_by_elementary_witness :
  pseudo_ktH_1 (loop_reactor 363.15)
    <= Rmax (ktH1_1 (loop_reactor 363.15)) (ktH2_1 (loop_reactor 363.15)) /\
  0 <= pseudo_kp_1 (loop_reactor 363.15).
Proof.
  assert (Hnn : nonnegative_concentrations (loop_reactor 363.15))
    by (unfold nonnegative_concentrations; cbn; repeat split; lra).
  pose proof (pseudo_constants_bounded_by_elementary _ Hnn) as H.
  split; apply H.
Defined.

(** With every concentration field 0 and a positive temperature the
    whole returned record is 0, whatever the volume and the reactor
    selector: the empty reactor is a rest state of the rate law. *)
Theorem zero_state_is_stationary (i : ZieglerModelInputs) :
  all_concentrations_zero i -> 0 < temperature i ->
  output_fields (outputs i) = repeat 0 37.
Proof.
  intros Hz _. unfold output_fields, outputs.
  cbn [repeat polymerProductionRate rateNitrogen rateEthylene rateEthane
       ratePropane rateButene rateIsobutane rateHexene rateHexane rateWater
       rateCarbonMonoxide rateMethane rateHydrogen rateEthylenesegment
       rateHexenesegment rateCatalyst rateCocatalyst rateCr6
       rateDeadPolymerMoment0_x0_1 rateDeadPolymerMoment0_x0_2
       rateDeadPolymerMoment1_x1_1 rateDeadPolymerMoment1_x1_2
       rateDeadPolymerMoment2_x2_1 rateDeadPolymerMoment2_x2_2
       rateLivingPolymerMoment0_y0_1 rateLivingPolymerMoment0_y0_2
       rateLivingPolymerMoment1_y1_1 rateLivingPolymerMoment1_y1_2
       rateLivingPolymerMoment2_y2_1 rateLivingPolymerMoment2_y2_2
       rateActiveSites_z0_1 rateActiveSites_z0_2
       rateLivingPolymerEnd_z1_1 rateLivingPolymerEnd_z1_2
       rateLivingPolymerEnd_z2_1 rateLivingPolymerEnd_z2_2
       ratePolymerMass].
  unfold_rates.
  zero_concentrations i Hz.
  unfold Rdiv.
  repeat (apply (f_equal2 (@cons R)); [ring |]).
  reflexivity.
Qed.

Lemma zero_state_is_stationary_witness :
  output_fields (outputs (zero_state 100000 363.15 1)) = repeat 0 37.
Proof.
  apply zero_state_is_stationary;
    [apply zero_state_all_zero | cbn [temperature zero_state]; lra].
Defined.

End ZieglerModel.

(** * Properties of [convertUnit] *)

Module UnitConverterFacts.

Import UnitConverter.

(** The two conversions quoted in the source's usage comment. *)
Example boiling_point_in_celsius :
  convertUnit 373.15 K C Temperature = Ok 100.
Proof. cbn. f_equal. lra. Qed.

Example ten_bar_in_psi : convertUnit 10 bar psi Pressure = Ok 145.0377.
Proof. cbn. f_equal. lra. Qed.

(** A conversion returns a value exactly when the two units are the
    same, whatever the unit type, or both belong to the unit type; the
    three unit types without a factor map convert nothing else. *)
Theorem convertUnit_returns_iff (v : R) (a b : Unit) (t : UnitType) :
  (exists w, convertUnit v a b t = Ok w)
  <-> a = b \/ (In a (unitsOf t) /\ In b (unitsOf t)).
Proof.
  destruct t, a, b; cbn; split;
    first [ intros _; eexists; reflexivity
          | intros _; left; reflexivity
          | intros _; right; split; tauto
          | intros [w Hw]; discriminate Hw
          | intros [Hab | [Ha Hb]];
            [ discriminate Hab
            | exfalso;
              repeat (match goal with
                      | H : _ \/ _ |- _ => destruct H as [H | H]
                      | H : _ = _ |- _ => discriminate H
                      | H : False |- _ => exact H
                      end) ] ].
Qed.

(** Which error a failing conversion raises.  With distinct units: an
    unimplemented unit type is reported as such; for a temperature the
    source unit is checked before the target unit; for pressure and mass
    a unit missing from the factor map is reported with both units. *)
Theorem convertUnit_error_kinds (v : R) (a b : Unit) (t : UnitType) :
  a <> b ->
  (In t [Length; Volume; Viscosity] ->
   convertUnit v a b t = Throw (UnitTypeNotImplemented t)) /\
  (t = Temperature -> ~ In a (unitsOf t) ->
   convertUnit v a b t = Throw (UnknownFromTemperatureUnit a)) /\
  (t = Temperature -> In a (unitsOf t) -> ~ In b (unitsOf t) ->
   convertUnit v a b t = Throw (UnknownToTemperatureUnit b)) /\
  (t = Pressure \/ t = Mass ->
   ~ (In a (unitsOf t) /\ In b (unitsOf t)) ->
   convertUnit v a b t = Throw (InvalidUnits t a b)).
Proof.
  intros Hab.
  destruct t, a, b; try (exfalso; apply Hab; reflexivity); cbn;
    repeat split; intros; try reflexivity; try discriminate;
    exfalso; intuition congruence.
Qed.

Lemma convertUnit_error_kinds_witness :
  convertUnit 1 bar kg Pressure = Throw (InvalidUnits Pressure bar kg) /\
  convertUnit 1 bar C Temperature = Throw (UnknownFromTemperatureUnit bar) /\
  convertUnit 1 C bar Temperature = Throw (UnknownToTemperatureUnit bar).
Proof.
  assert (H1 : bar <> kg) by discriminate.
  assert (H2 : bar <> C) by discriminate.
  assert (H3 : C <> bar) by discriminate.
  split; [| split].
  - apply (convertUnit_error_kinds 1 bar kg Pressure H1);
      [left; reflexivity | cbn; intuition discriminate].
  - apply (convertUnit_error_kinds 1 bar C Temperature H2);
      [reflexivity | cbn; intuition discriminate].
  - apply (convertUnit_error_kinds 1 C bar Temperature H3);
      [reflexivity | cbn; tauto | cbn; intuition discriminate].
Defined.

(** Round trip: converting a value and converting the result back
    returns the value. *)
Theorem convertUnit_round_trip (v w : R) (a b : Unit) (t : UnitType) :
  convertUnit v a b t = Ok w -> convertUnit w b a t = Ok v.
Proof.
  destruct a, b, t; cbn; intros H; try discriminate H;
    injection H as <-; f_equal; try field; try lra.
Qed.

Lemma convertUnit_round_trip_witness :
  convertUnit ((98.6 - 32) * (5 / 9) + 273.15) K F Temperature = Ok 98.6.
Proof.
  apply (convertUnit_round_trip 98.6 _ F K Temperature). reflexivity.
Defined.

(** Conversions compose: going from one unit to a second and on to a
    third gives what the direct conversion gives. *)
Theorem convertUnit_compose (v w x : R) (a b c : Unit) (t : UnitType) :
  convertUnit v a b t = Ok w -> convertUnit w b c t = Ok x ->
  convertUnit v a c t = Ok x.
Proof.
  destruct t, a, b; cbn; intros H; try discriminate H;
    injection H as <-; destruct c; cbn; intros H2; try discriminate H2;
    injection H2 as <-; f_equal; try field; try lra.
Qed.

Lemma convertUnit_compose_witness :
  convertUnit 2 atm psi Pressure = Ok (2 / (1 / 1.01325) * 1 / 1 * 14.50377).
Proof.
  apply (convertUnit_compose 2 (2 / (1 / 1.01325) * 1) _ atm bar psi Pressure);
    reflexivity.
Defined.

(** Every conversion is strictly increasing in the value converted. *)
Theorem convertUnit_increasing (v1 v2 w1 w2 : R) (a b : Unit) (t : UnitType) :
  convertUnit v1 a b t = Ok w1 -> convertUnit v2 a b t = Ok w2 ->
  v1 < v2 -> w1 < w2.
Proof.
  destruct a, b, t; cbn; intros H1 H2 Hlt;
    try discriminate H1;
    injection H1 as <-; injection H2 as <-;
    try lra;
    unfold Rdiv; rewrite ?Rinv_mult, ?Rinv_inv, ?Rinv_1, ?Rmult_1_l; lra.
Qed.

Lemma convertUnit_increasing_witness :
  (1 - 32) * (5 / 9) + 273.15 - 273.15 < (2 - 32) * (5 / 9) + 273.15 - 273.15.
Proof.
  apply (convertUnit_increasing 1 2 _ _ F C Temperature);
    [reflexivity | reflexivity | lra].
Defined.

(** Pressure and mass conversions are linear: scaling the value scales
    the result, so 0 converts to 0.  (Temperature conversions are affine
    and do not have this property.) *)
Theorem convertUnit_factor_linear (k v w : R) (a b : Unit) (t : UnitType) :
  t <> Temperature ->
  convertUnit v a b t = Ok w ->
  convertUnit (k * v) a b t = Ok (k * w).
Proof.
  intros Ht.
  destruct a, b, t; try (exfalso; apply Ht; reflexivity); cbn;
    intros H; try discriminate H;
    injection H as <-; f_equal; field; lra.
Qed.

Lemma convertUnit_factor_linear_witness :
  convertUnit (3 * 2) kg lbm Mass = Ok (3 * (2 / 1 * 2.20462)).
Proof.
  apply (convertUnit_factor_linear 3 2 _ kg lbm Mass);
    [discriminate | reflexivity].
Defined.

(** The Celsius and Fahrenheit readings of a temperature coincide at
    -40 and nowhere else. *)
Theorem celsius_equals_fahrenheit_only_at_minus_40 (v : R) :
  convertUnit v C F Temperature = Ok v <-> v = -40.
Proof.
  cbn. split.
  - intros H. injection H as H. lra.
  - intros ->. f_equal. lra.
Qed.

End UnitConverterFacts.

(** * Properties of the property correlations *)

Module PhysicalPropertiesFacts.

Import PhysicalProperties.

(** ** Maps *)

Lemma Map_get_set {V : Type} (m : list (string * V)) (k k' : string) (v : V) :
  Map_get (Map_set m k v) k' = if String.eqb k k' then Some v else Map_get m k'.
Proof.
  induction m as [| [k0 v0] m IH]; cbn.
  - reflexivity.
  - destruct (String.eqb k0 k) eqn:E0; cbn.
    + apply String.eqb_eq in E0. subst k0.
      destruct (String.eqb k k'); reflexivity.
    + destruct (String.eqb k0 k') eqn:E1.
      * apply String.eqb_eq in E1. subst k0.
        rewrite String.eqb_sym, E0. reflexivity.
      * exact IH.
Qed.

Lemma Map_set_fresh {V : Type} (m : list (string * V)) (k : string) (v : V) :
  ~ In k (map fst m) -> Map_set m k v = m ++ [(k, v)].
Proof.
  induction m as [| [k0 v0] m IH]; cbn; intros Hk.
  - reflexivity.
  - destruct (String.eqb k0 k) eqn:E0.
    + apply String.eqb_eq in E0. exfalso. apply Hk. left. exact E0.
    + rewrite IH; [reflexivity | tauto].
Qed.

Lemma Map_set_keys {V : Type} (m : list (string * V)) (k : string) (v : V) :
  map fst (Map_set m k v)
  = if existsb (String.eqb k) (map fst m) then map fst m
    else map fst m ++ [k].
Proof.
  induction m as [| [k0 v0] m IH]; cbn.
  - reflexivity.
  - rewrite (String.eqb_sym k k0).
    destruct (String.eqb k0 k) eqn:E0; cbn.
    + reflexivity.
    + rewrite IH. destruct (existsb (String.eqb k) (map fst m)); reflexivity.
Qed.

Lemma Map_set_NoDup {V : Type} (m : list (string * V)) (k : string) (v : V) :
  NoDup (map fst m) -> NoDup (map fst (Map_set m k v)).
Proof.
  intros Hnd. rewrite Map_set_keys.
  destruct (existsb (String.eqb k) (map fst m)) eqn:E; [exact Hnd |].
  apply NoDup_app; [exact Hnd | constructor; [intros [] | constructor] |].
  intros x Hx [Hk | []]. subst x.
  assert (Hex : existsb (String.eqb k) (map fst m) = true).
  { apply existsb_exists. exists k. split; [exact Hx | apply String.eqb_refl]. }
  congruence.
Qed.

(** ** Interval selection *)

Lemma withinInterval_covers (Tk : R) (lows highs : list R) (j : nat) :
  withinInterval Tk (at_index lows j) (at_index highs j) = true
  <-> covers Tk lows highs j.
Proof.
  unfold covers, withinInterval.
  destruct (at_index lows j) as [a |], (at_index highs j) as [b |].
  - destruct (Rle_dec a Tk), (Rle_dec Tk b); split;
      try (intros _; exists a, b; repeat split; assumption);
      try discriminate;
      try (intros (a' & b' & Ea & Eb & H1 & H2);
           injection Ea as <-; injection Eb as <-; first [reflexivity | lra]).
  - split; [discriminate | intros (a' & b' & _ & Eb & _); discriminate Eb].
  - split; [discriminate | intros (a' & b' & Ea & _); discriminate Ea].
  - split; [discriminate | intros (a' & b' & Ea & _); discriminate Ea].
Qed.

Lemma scanIntervals_spec (Tk : R) (lows highs : list R) (n i : nat) :
  (scanIntervals Tk lows highs i n = (-1)%Z /\
   forall j, (i <= j < i + n)%nat -> ~ covers Tk lows highs j)
  \/
  (exists j, scanIntervals Tk lows highs i n = Z.of_nat j /\
             (i <= j < i + n)%nat /\ covers Tk lows highs j /\
             forall j', (i <= j' < j)%nat -> ~ covers Tk lows highs j').
Proof.
  revert i. induction n as [| n IH]; intros i; cbn.
  - left. split; [reflexivity | intros j Hj; lia].
  - destruct (withinInterval Tk (at_index lows i) (at_index highs i)) eqn:E.
    + right. exists i. split; [reflexivity |].
      split; [lia |]. split; [apply withinInterval_covers; exact E |].
      intros j' Hj'. lia.
    + assert (Hi : ~ covers Tk lows highs i).
      { intros Hc. apply withinInterval_covers in Hc. congruence. }
      destruct (IH (S i)) as [[Hr Hnone] | (j & Hr & Hj & Hc & Hfirst)].
      * left. split; [exact Hr |].
        intros j Hj. destruct (Nat.eq_dec j i) as [-> | Hne];
          [exact Hi | apply Hnone; lia].
      * right. exists j. split; [exact Hr |]. split; [lia |].
        split; [exact Hc |].
        intros j' Hj'. destruct (Nat.eq_dec j' i) as [-> | Hne];
          [exact Hi | apply Hfirst; lia].
Qed.

(** With tabulated intervals the controller uses the first interval that
    contains the temperature (at a boundary shared by two intervals, the
    lower one), and signals -1 exactly when none of the first
    [interval_count] intervals contains it; a missing [interval_count]
    counts as 0. *)
Theorem correlationIndexAt_first_cover (Tk : R) (p : PropertyCoefficients)
    (lows highs : list R) :
  has_intervals p = true -> T_min p = Some lows -> T_max p = Some highs ->
  let n := match interval_count p with Some n => n | None => O end in
  (correlationIndexAt Tk p = (-1)%Z
   <-> forall j, (j < n)%nat -> ~ covers Tk lows highs j) /\
  (forall j, correlationIndexAt Tk p = Z.of_nat j ->
             (j < n)%nat /\ covers Tk lows highs j /\
             forall j', (j' < j)%nat -> ~ covers Tk lows highs j') /\
  (correlationIndexAt Tk p = (-1)%Z
   \/ (0 <= correlationIndexAt Tk p < Z.of_nat n)%Z).
Proof.
  intros Hh Hlo Hhi n. unfold correlationIndexAt. rewrite Hh, Hlo, Hhi.
  fold n.
  destruct (scanIntervals_spec Tk lows highs n 0)
    as [[Hr Hnone] | (j & Hr & Hj & Hc & Hfirst)]; rewrite Hr.
  - split; [| split].
    + split; [intros _ j Hj; apply Hnone; lia | reflexivity].
    + intros j Hj. lia.
    + left. reflexivity.
  - split; [| split].
    + split; [lia |]. intros Hnone. exfalso. apply (Hnone j); [lia | exact Hc].
    + intros j0 Hj0. apply Nat2Z.inj in Hj0. subst j0.
      split; [lia |]. split; [exact Hc |].
      intros j' Hj'. apply Hfirst. lia.
    + right. lia.
Qed.

Lemma correlationIndexAt_first_cover_witness :
  correlationIndexAt 500 ethylene_vapor_heat_capacity = (-1)%Z
  \/ (0 <= correlationIndexAt 500 ethylene_vapor_heat_capacity < 2)%Z.
Proof.
  apply (correlationIndexAt_first_cover 500 ethylene_vapor_heat_capacity
           [200; 500] [500; 1500]); reflexivity.
Defined.

(** At 500 K, the boundary shared by ethylene's two heat-capacity
    intervals, the first set of coefficients is used; at 1600 K no
    interval applies. *)
Example ethylene_heat_capacity_at_boundary :
  correlationIndexAt 500 ethylene_vapor_heat_capacity = 0%Z /\
  correlationIndexAt 1600 ethylene_vapor_heat_capacity = (-1)%Z.
Proof.
  unfold correlationIndexAt, scanIntervals, withinInterval. cbn.
  repeat (match goal with
          | |- context [Rle_dec ?x ?y] => destruct (Rle_dec x y); try lra
          end).
  split; reflexivity.
Qed.


(** ** Extrapolation *)

(** Out-of-range estimates that are 0 by construction: no reference
    [T_max], the enthalpy correlation (no branch handles [Type6]), and
    the power-law correlation once the reduced temperature one kelvin
    below the reference exceeds 1. *)
Theorem interpolateProperty_zero_cases (T : R) (coeff : PropertyCoefficients)
    (component : PureComponent) :
  (T_max coeff = None \/ T_max coeff = Some [] ->
   interpolateProperty T coeff component = Some 0) /\
  (correlation_type coeff = Type6 ->
   interpolateProperty T coeff component = Some 0) /\
  (forall T_max_ref rest,
      correlation_type coeff = Type5 ->
      T_max coeff = Some (T_max_ref :: rest) ->
      1 < (T_max_ref - 1) / critical_temperature (constants component) ->
      interpolateProperty T coeff component = Some 0).
Proof.
  unfold interpolateProperty. repeat split.
  - intros [H | H]; rewrite H; reflexivity.
  - intros H. rewrite H.
    destruct (T_max coeff) as [[| T_max_ref rest] |]; try reflexivity.
    destruct (Rlt_dec T (1.25 * T_max_ref)); reflexivity.
  - intros T_max_ref rest Hty Hmax Hr. rewrite Hty, Hmax.
    destruct (Rlt_dec T (1.25 * T_max_ref));
      destruct (Rle_dec ((T_max_ref - 1)
                         / critical_temperature (constants component)) 1);
      try reflexivity; lra.
Qed.

(** Far extrapolation is constant: from 1.25 times the reference [T_max]
    upwards the estimate does not depend on the temperature, and for a
    positive reference it is the near-range estimate at 17/16 of the
    reference. *)
Theorem interpolateProperty_far_constant (Tk Tk' T_max_ref : R)
    (rest : list R) (coeff : PropertyCoefficients) (component : PureComponent) :
  T_max coeff = Some (T_max_ref :: rest) ->
  1.25 * T_max_ref <= Tk -> 1.25 * T_max_ref <= Tk' ->
  interpolateProperty Tk coeff component
    = interpolateProperty Tk' coeff component /\
  (0 < T_max_ref ->
   interpolateProperty Tk coeff component
     = interpolateProperty (T_max_ref * (17 / 16)) coeff component).
Proof.
  intros Hmax HTk HTk'. unfold interpolateProperty. rewrite Hmax.
  destruct (Rlt_dec Tk (1.25 * T_max_ref)); [lra |].
  destruct (Rlt_dec Tk' (1.25 * T_max_ref)); [lra |].
  split; [reflexivity |].
  intros Hpos.
  destruct (Rlt_dec (T_max_ref * (17 / 16)) (1.25 * T_max_ref)); [| lra].
  destruct (correlation_type coeff); reflexivity.
Qed.

Lemma interpolateProperty_far_constant_witness :
  interpolateProperty 2000 ethylene_vapor_heat_capacity ethylene
  = interpolateProperty 3000 ethylene_vapor_heat_capacity ethylene.
Proof.
  apply (interpolateProperty_far_constant 2000 3000 500 [1500]
           ethylene_vapor_heat_capacity ethylene);
    [reflexivity | lra | lra].
Defined.

(** Near extrapolation passes through its two sample points.  For the
    correlation types 1 to 4 and a reference [T_max] above 10, the
    estimate at 10 K and at 1 K below the reference is the correlation's
    own value there, whenever the correlation has a value at both. *)
Theorem interpolateProperty_through_samples (T_max_ref v1 v2 : R)
    (rest : list R) (coeff : PropertyCoefficients) (component : PureComponent) :
  let Tc := critical_temperature (constants component) in
  let hform := enthalpy_formation (constants component) in
  let ty := correlation_type coeff in
  T_max coeff = Some (T_max_ref :: rest) -> 10 < T_max_ref ->
  ty = Type1 \/ ty = Type2 \/ ty = Type3 \/ ty = Type4 ->
  calcFunction ty (T_max_ref - 10) ((T_max_ref - 10) / Tc) coeff 0 hform
    = Some v1 ->
  calcFunction ty (T_max_ref - 1) ((T_max_ref - 1) / Tc) coeff 0 hform
    = Some v2 ->
  interpolateProperty (T_max_ref - 10) coeff component = Some v1 /\
  interpolateProperty (T_max_ref - 1) coeff component = Some v2.
Proof.
  intros Tc hform ty Hmax Href Hty H1 H2.
  unfold interpolateProperty. rewrite Hmax.
  destruct (Rlt_dec (T_max_ref - 10) (1.25 * T_max_ref)); [| lra].
  destruct (Rlt_dec (T_max_ref - 1) (1.25 * T_max_ref)); [| lra].
  fold Tc hform ty.
  assert (Hlin : forall a b : R,
             (b - a) / (T_max_ref - 1 - (T_max_ref - 10))
             * (T_max_ref - 1 - (T_max_ref - 10)) + a = b)
    by (intros a b; field; lra).
  assert (Hzero : forall a b : R,
             (b - a) / (T_max_ref - 1 - (T_max_ref - 10))
             * (T_max_ref - 10 - (T_max_ref - 10)) + a = a)
    by (intros a b; field; lra).
  destruct Hty as [Hty | [Hty | [Hty | Hty]]]; rewrite Hty in *.
  - rewrite H1, H2, Hzero, Hlin. split; reflexivity.
  - cbn [calcFunction] in H1, H2.
    destruct (calcAntoine (T_max_ref - 10) coeff 0) as [a1 |];
      [| discriminate H1].
    destruct (calcAntoine (T_max_ref - 1) coeff 0) as [a2 |];
      [| discriminate H2].
    injection H1 as <-. injection H2 as <-.
    split; f_equal; f_equal; field; repeat split; lra.
  - rewrite H1, H2, Hzero, Hlin. split; reflexivity.
  - rewrite H1, H2, Hzero, Hlin. split; reflexivity.
Qed.

Lemma interpolateProperty_zero_cases_witness :
  interpolateProperty 400 hexene_vapor_heat_capacity hexene = Some 0.
Proof.
  destruct (interpolateProperty_zero_cases 400 hexene_vapor_heat_capacity
              hexene) as [Hmissing _].
  apply Hmissing. left. reflexivity.
Defined.

Lemma interpolateProperty_through_samples_witness :
  interpolateProperty (500 - 10) ethylene_vapor_heat_capacity ethylene
  = Some (1.424e+4 + 7.550e+1 * (500 - 10) + -1.800e-2 * (500 - 10) ^ 2
          + 0 * (500 - 10) ^ 3 + 0 * (500 - 10) ^ 4).
Proof.
  apply (interpolateProperty_through_samples 500 _
           (1.424e+4 + 7.550e+1 * (500 - 1) + -1.800e-2 * (500 - 1) ^ 2
            + 0 * (500 - 1) ^ 3 + 0 * (500 - 1) ^ 4)
           [1500] ethylene_vapor_heat_capacity ethylene);
    [reflexivity | lra | left; reflexivity | reflexivity | reflexivity].
Defined.

(** ** The controller *)

Lemma calculateProperty_fold (T : R) (c : PureComponent)
    (l : list (string * PropertyCoefficients))
    (acc : list (string * option R)) :
  NoDup (map fst acc ++ map fst l) ->
  fold_left (calculateProperty T) l (with_calculated acc c)
  = with_calculated
      (acc ++ map (fun e => (fst e, propertyValue T c (snd e))) l) c.
Proof.
  revert acc. induction l as [| [k p] l IH]; intros acc Hnd; cbn [fold_left map].
  - rewrite app_nil_r. reflexivity.
  - assert (Hfresh : ~ In k (map fst acc)).
    { cbn in Hnd. apply NoDup_remove_2 in Hnd.
      intros Hin. apply Hnd. apply in_or_app. left. exact Hin. }
    change (calculateProperty T (with_calculated acc c) (k, p))
      with (with_calculated (Map_set acc k (propertyValue T c p)) c).
    rewrite (Map_set_fresh acc k _ Hfresh).
    rewrite IH.
    + rewrite <- app_assoc. reflexivity.
    + rewrite map_app, <- app_assoc. exact Hnd.
Qed.

(** For a component whose property names are distinct (as the keys of a
    [Map] are), the clone returned for it keeps the constants and the
    property table and holds exactly one calculated value per property,
    in the table's order, under the property's name. *)
Theorem calculateComponent_one_value_per_property (T : R)
    (component : PureComponent) :
  NoDup (map fst (properties component)) ->
  calculateComponent T component
  = {| constants := constants component;
       properties := properties component;
       calculated_properties :=
         map (fun e => (fst e, propertyValue T component (snd e)))
             (properties component) |}.
Proof.
  intros Hnd. unfold calculateComponent.
  cbn [properties with_calculated].
  rewrite calculateProperty_fold; [reflexivity | exact Hnd].
Qed.

Lemma calculateComponent_one_value_per_property_witness :
  map fst (calculated_properties (calculateComponent 400 ethylene))
  = ["Vapor heat capacity"; "Liquid viscosity"]%string.
Proof.
  assert (Hnd : NoDup (map fst (properties ethylene))).
  { cbn. repeat constructor; cbn; intuition discriminate. }
  rewrite (calculateComponent_one_value_per_property 400 ethylene Hnd).
  reflexivity.
Defined.

Lemma calculateAllProperties_fold (library : list (string * PureComponent))
    (T : R) (names : list string) (acc : list (string * PureComponent))
    (n : string) :
  Map_get
    (fold_left
       (fun results name =>
          match Map_get library name with
          | None => results
          | Some component =>
              Map_set results name (calculateComponent T component)
          end) names acc) n
  = match
      (if existsb (String.eqb n) names
       then option_map (calculateComponent T) (Map_get library n)
       else None)
    with
    | Some c => Some c
    | None => Map_get acc n
    end.
Proof.
  revert acc. induction names as [| a names IH]; intros acc;
    cbn [fold_left existsb].
  - reflexivity.
  - rewrite IH.
    destruct (existsb (String.eqb n) names) eqn:Erest.
    + rewrite orb_true_r.
      destruct (Map_get library n) as [c |] eqn:En; cbn [option_map];
        [reflexivity |].
      destruct (String.eqb n a) eqn:Ena.
      * apply String.eqb_eq in Ena. subst a. rewrite En. reflexivity.
      * destruct (Map_get library a); [| reflexivity].
        rewrite Map_get_set, (String.eqb_sym a n), Ena. reflexivity.
    + rewrite orb_false_r.
      destruct (String.eqb n a) eqn:Ena.
      * apply String.eqb_eq in Ena. subst a.
        destruct (Map_get library n) as [c |]; cbn [option_map];
          [| reflexivity].
        rewrite Map_get_set, String.eqb_refl. reflexivity.
      * destruct (Map_get library a); [| reflexivity].
        rewrite Map_get_set, (String.eqb_sym a n), Ena. reflexivity.
Qed.

(** Looking a name up in the result of [calculateAllProperties]: a
    requested name that the library knows maps to that component's
    evaluated clone; a requested name the library lacks is skipped; a
    name that was not requested is absent.  Repeating a name changes
    nothing, and the result never holds a name twice. *)
Theorem calculateAllProperties_lookup
    (library : list (string * PureComponent))
    (names : list string) (T : R) (n : string) :
  Map_get (calculateAllPropertiesFrom library names T) n
  = (if existsb (String.eqb n) names
     then option_map (calculateComponent T) (Map_get library n)
     else None) /\
  NoDup (map fst (calculateAllPropertiesFrom library names T)).
Proof.
  split.
  - unfold calculateAllPropertiesFrom. rewrite calculateAllProperties_fold.
    destruct (existsb (String.eqb n) names); [| reflexivity].
    destruct (option_map (calculateComponent T) (Map_get library n));
      reflexivity.
  - unfold calculateAllPropertiesFrom.
    assert (Hgen : forall acc : list (string * PureComponent),
               NoDup (map fst acc) ->
               NoDup (map fst
                 (fold_left
                    (fun results name =>
                       match Map_get library name with
                       | None => results
                       | Some component =>
                           Map_set results name
                             (calculateComponent T component)
                       end) names acc))).
    { induction names as [| a names IH]; intros acc Hacc; cbn [fold_left].
      - exact Hacc.
      - apply IH. destruct (Map_get library a); [| exact Hacc].
        apply Map_set_NoDup. exact Hacc. }
    apply Hgen. constructor.
Qed.

(** With the library of [componentData.ts]: an unknown name is skipped
    and a repeated one is kept once. *)
Example calculateAllProperties_known_and_unknown :
  map fst (calculateAllProperties
             ["ETHYLENE"; "WATER"; "1-HEXENE"; "ETHYLENE"]%string 400)
  = ["ETHYLENE"; "1-HEXENE"]%string.
Proof. reflexivity. Qed.

(** The value stored for a property with tabulated intervals: when some
    interval among the first [interval_count] contains the temperature,
    the correlation evaluated with the coefficients of the first such
    interval; when none does, the extrapolated estimate. *)
Theorem propertyValue_by_range (T : R) (component : PureComponent)
    (p : PropertyCoefficients) (lows highs : list R) :
  has_intervals p = true -> T_min p = Some lows -> T_max p = Some highs ->
  let n := match interval_count p with Some n => n | None => O end in
  (forall j,
      (j < n)%nat -> covers T lows highs j ->
      (forall j', (j' < j)%nat -> ~ covers T lows highs j') ->
      propertyValue T component p
      = calcFunction (correlation_type p) T
          (T / critical_temperature (constants component)) p j
          (enthalpy_formation (constants component))) /\
  ((forall j, (j < n)%nat -> ~ covers T lows highs j) ->
   propertyValue T component p = interpolateProperty T p component).
Proof.
  intros Hh Hlo Hhi n.
  unfold propertyValue, correlationIndexAt. rewrite Hh, Hlo, Hhi. fold n.
  destruct (scanIntervals_spec T lows highs n 0)
    as [[Hr Hnone] | (j0 & Hr & Hj0 & Hc0 & Hfirst0)]; rewrite Hr.
  - split.
    + intros j Hj Hc _. exfalso. apply (Hnone j); [lia | exact Hc].
    + intros _. reflexivity.
  - assert (Hne : Z.eqb (Z.of_nat j0) (-1) = false)
      by (apply Z.eqb_neq; lia).
    rewrite Hne, Nat2Z.id. split.
    + intros j Hj Hc Hfirst.
      assert (Heq : j = j0).
      { destruct (Nat.lt_trichotomy j j0) as [Hlt | [Heq | Hgt]].
        - exfalso. apply (Hfirst0 j); [lia | exact Hc].
        - exact Heq.
        - exfalso. apply (Hfirst j0); [exact Hgt | exact Hc0]. }
      subst j. reflexivity.
    + intros Hnone. exfalso. apply (Hnone j0); [lia | exact Hc0].
Qed.

Lemma propertyValue_by_range_witness :
  propertyValue 1600 ethylene ethylene_vapor_heat_capacity
  = interpolateProperty 1600 ethylene_vapor_heat_capacity ethylene.
Proof.
  destruct (propertyValue_by_range 1600 ethylene ethylene_vapor_heat_capacity
              [200; 500] [500; 1500] eq_refl eq_refl eq_refl) as [_ Hout].
  apply Hout. intros j Hj (a & b & Ha & Hb & Hab).
  cbn in Hj.
  destruct j as [| [| j]]; [| | lia]; cbn in Ha, Hb;
    injection Ha as <-; injection Hb as <-; lra.
Defined.

(** ** Single correlations *)

(** At the reference temperature 298.15 K the enthalpy correlation
    returns the formation enthalpy it is given: both bracketed
    differences vanish.  (The third coefficient must not be 0, or the
    hyperbolic cotangent divides by zero.) *)
Theorem calcEnthalpy_at_reference (coeff : PropertyCoefficients)
    (index : nat) (Tr HForm c0 c1 c2 c3 c4 : R) :
  at_index (coeff_0 coeff) index = Some c0 ->
  at_index (coeff_1 coeff) index = Some c1 ->
  at_index (coeff_2 coeff) index = Some c2 ->
  at_index (coeff_3 coeff) index = Some c3 ->
  at_index (coeff_4 coeff) index = Some c4 ->
  c2 <> 0 ->
  calcEnthalpy 298.15 coeff index HForm = Some HForm /\
  calcFunction Type6 298.15 Tr coeff index HForm = Some HForm.
Proof.
  intros H0 H1 H2 H3 H4 _.
  assert (He : calcEnthalpy 298.15 coeff index HForm = Some HForm).
  { unfold calcEnthalpy. rewrite H0, H1, H2, H3, H4. f_equal. ring. }
  split; [exact He | exact He].
Qed.

Lemma calcEnthalpy_at_reference_witness :
  calcEnthalpy 298.15 sample_enthalpy_correlation 0 52467 = Some 52467.
Proof.
  apply (calcEnthalpy_at_reference sample_enthalpy_correlation 0 1 52467
           33380 94790 1596 55100 740.8);
    try reflexivity; lra.
Defined.



End PhysicalPropertiesFacts.
